(** * MFlix analytics dashboard (app.py): the query layer and its panels

    The dashboard is one Streamlit script.  It reads three collections of a
    document store (movies, users, comments), runs a handful of aggregation
    pipelines driven by the sidebar filters, and renders one panel per
    pipeline.  This file embeds the pipelines stage by stage, the try/except
    structure of every panel, and proves the properties of the written
    specification about them.

    Numbers are exact rationals ([Q]): the store's doubles are idealised, so
    an average is the exact quotient of the sum by the count.  *)

From Stdlib Require Import List Bool Arith ZArith QArith Lia Lqa.
From Stdlib Require Import Ascii String Permutation Sorted.
Import ListNotations.

Set Implicit Arguments.
Local Open Scope string_scope.
Local Open Scope list_scope.

(* ================================================================== *)
(** * Documents *)
(* ================================================================== *)

Module Doc.

(** A stored scalar.  Fields of the sample data set are loosely typed: a
    year may be a string, a rating may be the empty string. *)
Inductive scalar : Type :=
| SNull
| SNum (q : Q)
| SStr (s : string).

(** A field that may hold an array (only [genres] does). *)
Inductive field : Type :=
| Missing
| Scalar (s : scalar)
| Array (xs : list scalar).

(** A document of [db.movies].  [None] is an absent field. *)
Record movie : Type := Movie {
  m_id : nat;
  title : option scalar;
  year : option scalar;
  genres : field;
  imdb_rating : option scalar;
  plot : option scalar
}.

(** A document of [db.comments]; [movie_id] is an unchecked reference. *)
Record comment : Type := Comment {
  c_id : nat;
  movie_id : option nat
}.

Definition opt_field (o : option scalar) : field :=
  match o with
  | None => Missing
  | Some s => Scalar s
  end.

(** The value of ["$path"] in an expression: an absent field reads as null. *)
Definition opt_value (o : option scalar) : scalar :=
  match o with
  | None => SNull
  | Some s => s
  end.

(** Equality of values as the store groups them: numbers by numeric value. *)
Definition scalar_eqb (a b : scalar) : bool :=
  match a, b with
  | SNull, SNull => true
  | SNum p, SNum q => Qeq_bool p q
  | SStr s, SStr t => String.eqb s t
  | _, _ => false
  end.

(** The store's sort order on values: null, then numbers, then strings. *)
Definition scalar_leb (a b : scalar) : bool :=
  match a, b with
  | SNull, _ => true
  | SNum _, SNull => false
  | SNum p, SNum q => Qle_bool p q
  | SNum _, SStr _ => true
  | SStr _, SNull => false
  | SStr _, SNum _ => false
  | SStr s, SStr t => String.leb s t
  end.

(** Python truthiness of a value ([if g.get("_id")]). *)
Definition truthy (s : scalar) : bool :=
  match s with
  | SNull => false
  | SNum q => negb (Qeq_bool q 0)
  | SStr t => negb (String.eqb t "")
  end.

End Doc.
Import Doc.

(* ================================================================== *)
(** * Regular expressions: the fragment of [$regex] that is modelled *)
(* ================================================================== *)

Module Regex.

Local Open Scope char_scope.

(** Characters with a special meaning in a pattern. *)
Definition is_meta (c : ascii) : bool :=
  existsb (Ascii.eqb c)
    ["\"; "^"; "$"; "."; "|"; "?"; "*"; "+"; "("; ")"; "["; "]"; "{"; "}"].

(** The modelled fragment: literal characters and the wildcard [.]. *)
Definition supported (p : string) : bool :=
  forallb (fun c => negb (is_meta c) || Ascii.eqb c ".") (list_ascii_of_string p).


(** ASCII case folding, as option [i] does. *)
Definition lower (c : ascii) : ascii :=
  let n := nat_of_ascii c in
  if (65 <=? n)%nat && (n <=? 90)%nat then ascii_of_nat (n + 32) else c.

Definition newline : ascii := ascii_of_nat 10.

Definition atom_match (c x : ascii) : bool :=
  if Ascii.eqb c "." then negb (Ascii.eqb x newline)
  else Ascii.eqb (lower c) (lower x).

(** The pattern matches a prefix of the subject. *)
Fixpoint match_here (p s : list ascii) : bool :=
  match p with
  | [] => true
  | c :: p' =>
      match s with
      | [] => false
      | x :: s' => atom_match c x && match_here p' s'
      end
  end.

(** An unanchored pattern matches at some position of the subject. *)
Fixpoint search_from (p s : list ascii) : bool :=
  match_here p s ||
  match s with
  | [] => false
  | _ :: s' => search_from p s'
  end.

(** [{"$regex": p, "$options": "i"}] on a string. *)
Definition regex_search_i (p t : string) : bool :=
  search_from (list_ascii_of_string p) (list_ascii_of_string t).

End Regex.

(* ================================================================== *)
(** * Query documents and [$match] *)
(* ================================================================== *)

Module Query.

(** The paths the dashboard's queries mention. *)
Inductive path : Type :=
| PTitle      (* "title" *)
| PYear       (* "year" *)
| PRating     (* "imdb.rating" *)
| PGenres.    (* "genres" *)

(** The query operators the dashboard uses. *)
Inductive cond : Type :=
| CGte (n : Q)               (* {"$gte": n} *)
| CLte (n : Q)               (* {"$lte": n} *)
| CTypeNumber                (* {"$type": "number"} *)
| CIn (vs : list string)     (* {"$in": vs} *)
| CRegexI (p : string).      (* {"$regex": p, "$options": "i"} *)

Definition query : Type := list (path * list cond).

Definition get_field (p : path) (m : movie) : field :=
  match p with
  | PTitle => opt_field (title m)
  | PYear => opt_field (year m)
  | PRating => opt_field (imdb_rating m)
  | PGenres => genres m
  end.

(** One operator against one value.  Comparisons are type-bracketed: a
    numeric bound only matches numbers. *)
Definition scalar_sat (c : cond) (s : scalar) : bool :=
  match c, s with
  | CGte n, SNum q => Qle_bool n q
  | CLte n, SNum q => Qle_bool q n
  | CTypeNumber, SNum _ => true
  | CIn vs, SStr g => existsb (String.eqb g) vs
  | CRegexI p, SStr t => Regex.regex_search_i p t
  | _, _ => false
  end.

(** An array field satisfies an operator when one of its elements does. *)
Definition field_sat (c : cond) (f : field) : bool :=
  match f with
  | Missing => false
  | Scalar s => scalar_sat c s
  | Array xs => existsb (scalar_sat c) xs
  end.

Definition matches (q : query) (m : movie) : bool :=
  forallb (fun pc => forallb (fun c => field_sat c (get_field (fst pc) m)) (snd pc)) q.

End Query.
Import Query.

(* ================================================================== *)
(** * Pipeline stages *)
(* ================================================================== *)

Module Stage.

Section Generic.
Variable A : Type.

(** [$group]: the distinct keys, in order of first occurrence. *)
Fixpoint distinct (ks : list scalar) : list scalar :=
  match ks with
  | [] => []
  | k :: r => k :: filter (fun k' => negb (scalar_eqb k' k)) (distinct r)
  end.

(** The documents of one group. *)
Definition members (key : A -> scalar) (k : scalar) (docs : list A) : list A :=
  filter (fun d => scalar_eqb (key d) k) docs.

(** [$group] by [key]: one entry per distinct key, with its documents. *)
Definition group_by (key : A -> scalar) (docs : list A) : list (scalar * list A) :=
  map (fun k => (k, members key k docs)) (distinct (map key docs)).

(** [$sort]: a stable insertion sort for the order [leb]. *)
Variable leb : A -> A -> bool.

Fixpoint insert (x : A) (l : list A) : list A :=
  match l with
  | [] => [x]
  | y :: r => if leb x y then x :: l else y :: insert x r
  end.

Fixpoint sort (l : list A) : list A :=
  match l with
  | [] => []
  | x :: r => insert x (sort r)
  end.
End Generic.

(** [$limit n] of a pipeline ([n] is positive there). *)
Definition limit {A} (n : nat) (l : list A) : list A := firstn n l.

(** [cursor.limit(n)]: a limit of 0 is no limit. *)
Definition cursor_limit {A} (n : nat) (l : list A) : list A :=
  if (n =? 0)%nat then l else firstn n l.

(** The numbers among some values. *)
Fixpoint numbers (vs : list scalar) : list Q :=
  match vs with
  | [] => []
  | SNum q :: r => q :: numbers r
  | _ :: r => numbers r
  end.

Definition Qsum (qs : list Q) : Q := fold_right Qplus 0 qs.

(** [$avg]: the mean of the numeric values, null when there is none. *)
Definition avg (vs : list scalar) : scalar :=
  match numbers vs with
  | [] => SNull
  | qs => SNum (Qsum qs / inject_Z (Z.of_nat (List.length qs)))
  end.

(** [$min] and [$max]: the least and the greatest non-null value in the
    store's order, null when there is none. *)
Definition pick (better : scalar -> scalar -> bool) (acc v : scalar) : scalar :=
  match v, acc with
  | SNull, _ => acc
  | _, SNull => v
  | _, _ => if better v acc then v else acc
  end.

Definition min_value (vs : list scalar) : scalar :=
  fold_left (pick scalar_leb) vs SNull.

Definition max_value (vs : list scalar) : scalar :=
  fold_left (pick (fun a b => scalar_leb b a)) vs SNull.

(** [$unwind: "$genres"]: one output per array element, each paired with
    the element that replaces the array; nothing for an absent, null or
    empty field; a non-array value is unwound as itself. *)
Definition unwind_genres (m : movie) : list (movie * scalar) :=
  match genres m with
  | Missing => []
  | Scalar SNull => []
  | Scalar s => [(m, s)]
  | Array xs => map (fun g => (m, g)) xs
  end.

(** A movie after [$lookup] and [$addFields]. *)
Record joined : Type := Joined {
  j_movie : movie;
  all_comments : list comment;
  comment_count : nat
}.

Definition refers_to (m : movie) (c : comment) : bool :=
  match movie_id c with
  | Some i => (i =? m_id m)%nat
  | None => false
  end.

(** [$lookup] from comments on [_id = movie_id], then
    [$addFields comment_count = $size all_comments]. *)
Definition lookup_comments (cs : list comment) (m : movie) : joined :=
  let attached := filter (refers_to m) cs in
  Joined m attached (List.length attached).

End Stage.
Import Stage.

(* ================================================================== *)
(** * The dashboard's pipelines *)
(* ================================================================== *)

Module Pipelines.

(** The sidebar's filter values. *)
Record filter_state : Type := FilterState {
  year_range : Z * Z;
  selected_genres : list string;
  rating_filter : Q
}.

(** [match_stage]: the year and rating bounds, and the genre restriction
    when some genre is selected. *)
Definition match_stage (fs : filter_state) : query :=
  [ (PYear, [CGte (inject_Z (fst (year_range fs)));
             CLte (inject_Z (snd (year_range fs)))]);
    (PRating, [CGte (rating_filter fs); CTypeNumber]) ]
  ++ match selected_genres fs with
     | [] => []
     | _ :: _ => [(PGenres, [CIn (selected_genres fs)])]
     end.

(** An output document of a [$group] with an average and a count. *)
Record group_row : Type := GroupRow {
  g_id : scalar;
  avgRating : scalar;
  movieCount : nat
}.

Definition rating_value (m : movie) : scalar := opt_value (imdb_rating m).
Definition year_value (m : movie) : scalar := opt_value (year m).

(** Rating trend: [$match], [$group] by year, [$sort] by year ascending. *)
Definition trend_pipeline (fs : filter_state) (ms : list movie) : list group_row :=
  let matched := filter (matches (match_stage fs)) ms in
  let grouped :=
    map (fun g => GroupRow (fst g) (avg (map rating_value (snd g)))
                           (List.length (snd g)))
        (group_by year_value matched) in
  sort (fun a b => scalar_leb (g_id a) (g_id b)) grouped.

(** Genre performance: [$match], [$unwind], [$group] by genre, drop the
    null group, [$sort] by count descending. *)
Definition genre_pipeline (fs : filter_state) (ms : list movie) : list group_row :=
  let matched := filter (matches (match_stage fs)) ms in
  let unwound := flat_map unwind_genres matched in
  let grouped :=
    map (fun g => GroupRow (fst g)
                           (avg (map (fun d => rating_value (fst d)) (snd g)))
                           (List.length (snd g)))
        (group_by (@snd movie scalar) unwound) in
  let named := filter (fun r => negb (scalar_eqb (g_id r) SNull)) grouped in
  sort (fun a b => (movieCount b <=? movieCount a)%nat) named.

(** A row of the most-discussed ranking after [$project]. *)
Record discussed_row : Type := DiscussedRow {
  d_id : nat;
  d_title : option scalar;
  d_year : option scalar;
  d_rating : option scalar;
  d_comment_count : nat;
  d_genres : field
}.

Definition project_discussed (j : joined) : discussed_row :=
  let m := j_movie j in
  DiscussedRow (m_id m) (title m) (year m) (imdb_rating m) (comment_count j) (genres m).

(** Most discussed: [$lookup], [$addFields], [$match], [$sort] by comment
    count descending, [$limit 15], [$project]. *)
Definition discussion_pipeline (fs : filter_state) (ms : list movie)
    (cs : list comment) : list discussed_row :=
  let joined := map (lookup_comments cs) ms in
  let matched := filter (fun j => matches (match_stage fs) (j_movie j)) joined in
  let ranked := sort (fun a b => (comment_count b <=? comment_count a)%nat) matched in
  map project_discussed (limit 15 ranked).

(** A row of the search result after projection ([_id] is kept by default). *)
Record search_row : Type := SearchRow {
  s_id : nat;
  s_title : option scalar;
  s_year : option scalar;
  s_genres : field;
  s_rating : option scalar;
  s_plot : option scalar
}.

Definition project_search (m : movie) : search_row :=
  SearchRow (m_id m) (title m) (year m) (genres m) (imdb_rating m) (plot m).

(** The search filter: the title pattern merged with [match_stage]. *)
Definition search_filter (text : string) (fs : filter_state) : query :=
  (PTitle, [CRegexI text]) :: match_stage fs.

(** [db.movies.find(filter, projection).limit(result_limit)].  [None] when
    the search text uses pattern syntax outside the modelled fragment. *)
Definition search_find (text : string) (result_limit : nat) (fs : filter_state)
    (ms : list movie) : option (list search_row) :=
  if Regex.supported text
  then Some (map project_search
               (cursor_limit result_limit (filter (matches (search_filter text fs)) ms)))
  else None.

(** The KPI average: [$match] numeric ratings, [$group] everything. *)
Record avg_row : Type := AvgRow {
  a_id : scalar;
  a_avgRating : scalar
}.

Definition rating_pipeline (ms : list movie) : list avg_row :=
  let matched := filter (matches [(PRating, [CTypeNumber])]) ms in
  map (fun g => AvgRow (fst g) (avg (map rating_value (snd g))))
      (group_by (fun _ : movie => SNull) matched).

(** The sidebar's year bounds: [$match] numeric years, [$group] everything
    with [$min] and [$max]. *)
Record year_row : Type := YearRow {
  y_id : scalar;
  minYear : scalar;
  maxYear : scalar
}.

Definition year_stats_pipeline (ms : list movie) : list year_row :=
  let matched := filter (matches [(PYear, [CTypeNumber])]) ms in
  map (fun g => YearRow (fst g) (min_value (map year_value (snd g)))
                        (max_value (map year_value (snd g))))
      (group_by (fun _ : movie => SNull) matched).

(** The sidebar's genre options: [$unwind], [$group] with a count, [$sort]
    by count descending, [$limit 50]. *)
Record count_row : Type := CountRow {
  n_id : scalar;
  n_count : nat
}.

Definition genre_list_pipeline (ms : list movie) : list count_row :=
  let unwound := flat_map unwind_genres ms in
  let grouped :=
    map (fun g => CountRow (fst g) (List.length (snd g)))
        (group_by (@snd movie scalar) unwound) in
  limit 50 (sort (fun a b => (n_count b <=? n_count a)%nat) grouped).

End Pipelines.
Import Pipelines.

(* ================================================================== *)
(** * The script: store handle, exceptions, panels *)
(* ================================================================== *)

Module Dashboard.

(** A computation that returns or raises an exception with a message. *)
Inductive result (A : Type) : Type :=
| Ok (a : A)
| Raise (e : string).
Arguments Ok {A} a.
Arguments Raise {A} e.

Definition bind {A B} (c : result A) (k : A -> result B) : result B :=
  match c with
  | Ok a => k a
  | Raise e => Raise e
  end.

Notation "x <- c ;; k" := (bind c (fun x => k))
  (at level 61, c at next level, right associativity).

(** The calls the script makes on the store handle. *)
Inductive call : Type :=
| CountMovies        (* db.movies.count_documents({}) *)
| ListCollections    (* db.list_collection_names() *)
| CountUsers         (* db.users.count_documents({}) *)
| CountComments      (* db.comments.count_documents({}) *)
| AvgRating          (* the KPI rating aggregate *)
| YearStats          (* the sidebar's year bounds aggregate *)
| GenreList          (* the sidebar's genre options aggregate *)
| TrendQuery
| GenreQuery
| DiscussionQuery
| SearchQuery.

(** The store behind the handle: the three collections ([None]: the
    collection does not exist) and, for each call, whether it fails and
    with which message. *)
Record database : Type := Database {
  movies : list movie;
  users : option nat;
  comments : option (list comment);
  failure : call -> option string
}.

(** A call on the handle: the answer, unless the call fails. *)
Definition request {A} (db : database) (c : call) (answer : A) : result A :=
  match failure db c with
  | Some e => Raise e
  | None => Ok answer
  end.

Definition collection_names (db : database) : list string :=
  ["movies"]
  ++ (match users db with Some _ => ["users"] | None => [] end)
  ++ (match comments db with Some _ => ["comments"] | None => [] end).

Definition comment_docs (db : database) : list comment :=
  match comments db with
  | Some cs => cs
  | None => []
  end.

Definition user_total (db : database) : nat :=
  match users db with
  | Some n => n
  | None => 0%nat
  end.

(** ** Key performance indicators *)

Record kpis : Type := Kpis {
  movies_count : nat;
  users_count : nat;
  comments_count : nat;
  avg_rating : scalar
}.

(** The body of the KPI [try] block. *)
Definition kpi_queries (db : database) : result kpis :=
  mc <- request db CountMovies (List.length (movies db)) ;;
  names <- request db ListCollections (collection_names db) ;;
  uc <- (if existsb (String.eqb "users") names
         then request db CountUsers (user_total db) else Ok 0%nat) ;;
  names' <- request db ListCollections (collection_names db) ;;
  cc <- (if existsb (String.eqb "comments") names'
         then request db CountComments (List.length (comment_docs db)) else Ok 0%nat) ;;
  rating_data <- request db AvgRating (rating_pipeline (movies db)) ;;
  Ok (Kpis mc uc cc
        (match rating_data with
         | [] => SNum 0
         | r :: _ => a_avgRating r
         end)).

(** The KPI block with its [except]: the error shown, if any, and the four
    values the rest of the script sees. *)
Definition kpi_section (db : database) : option string * kpis :=
  match kpi_queries db with
  | Ok k => (None, k)
  | Raise e => (Some (String.append "Error calculating metrics: " e), Kpis 0 0 0 (SNum 0))
  end.

(** ** Sidebar *)

(** Python's [int] on a number truncates towards zero.  On null it raises;
    the year aggregate only ever yields numbers. *)
Definition py_int (s : scalar) : result Z :=
  match s with
  | SNum q => Ok (Z.quot (Qnum q) (Zpos (Qden q)))
  | SNull => Raise "TypeError"
  | SStr _ => Raise "ValueError"
  end.

(** The slider bounds; any exception falls back to 1900..2025, unreported. *)
Definition sidebar_years (db : database) : Z * Z :=
  match
    (year_stats <- request db YearStats (year_stats_pipeline (movies db)) ;;
     match year_stats with
     | [] => Ok (1900%Z, 2025%Z)
     | r :: _ =>
         lo <- py_int (minYear r) ;;
         hi <- py_int (maxYear r) ;;
         Ok (lo, hi)
     end)
  with
  | Ok b => b
  | Raise _ => (1900%Z, 2025%Z)
  end.

(** The genre options; any exception falls back to no option, unreported. *)
Definition sidebar_genres (db : database) : list scalar :=
  match request db GenreList (genre_list_pipeline (movies db)) with
  | Ok genres_data => map n_id (filter (fun g => truthy (n_id g)) genres_data)
  | Raise _ => []
  end.

(** ** Panels *)

(** What the viewer chose in the widgets. *)
Record inputs : Type := Inputs {
  filters : filter_state;
  search_query : string;
  result_limit : nat
}.

Inductive level : Type := Info | Warning.

(** What a panel shows. *)
Inductive outcome (R : Type) : Type :=
| NotRun                                  (* the query was not attempted *)
| Failed (msg : string)                   (* st.error *)
| Notice (lv : level) (msg : string)      (* st.info / st.warning: no rows *)
| Rendered (rows : list R).               (* charts and tables of the rows *)
Arguments NotRun {R}.
Arguments Failed {R} msg.
Arguments Notice {R} lv msg.
Arguments Rendered {R} rows.

(** The shape every panel shares: [try], render unless the frame is empty,
    otherwise a notice; [except] shows the error. *)
Definition panel {R} (prefix : string) (lv : level) (empty_msg : string)
    (r : result (list R)) : outcome R :=
  match r with
  | Raise e => Failed (String.append prefix e)
  | Ok [] => Notice lv empty_msg
  | Ok rows => Rendered rows
  end.

Definition trend_panel (db : database) (i : inputs) : outcome group_row :=
  panel "Error generating trend chart: " Info
        "No data available for the selected filters."
        (request db TrendQuery (trend_pipeline (filters i) (movies db))).

Definition genre_panel (db : database) (i : inputs) : outcome group_row :=
  panel "Error generating genre analysis: " Warning
        "No genre data available for current filters."
        (request db GenreQuery (genre_pipeline (filters i) (movies db))).

(** The panel is attempted only when the KPI block counted some comment. *)
Definition discussion_panel (db : database) (i : inputs) : outcome discussed_row :=
  if (0 <? comments_count (snd (kpi_section db)))%nat
  then panel "Error generating comments analysis: " Info
             "No comment data available for selected filters."
             (request db DiscussionQuery
                (discussion_pipeline (filters i) (movies db) (comment_docs db)))
  else NotRun.

(** The search runs only on a non-empty text.  [None] when the text uses
    pattern syntax outside the modelled fragment. *)
Definition search_panel (db : database) (i : inputs) : option (outcome search_row) :=
  if String.eqb (search_query i) "" then Some NotRun
  else
    match search_find (search_query i) (result_limit i) (filters i) (movies db) with
    | Some rows =>
        Some (panel "Search error: " Warning
                    "❌ No movies found matching your search criteria."
                    (request db SearchQuery rows))
    | None => None
    end.

(** One run of the script. *)
Record page : Type := Page {
  kpi_error : option string;
  kpi_values : kpis;
  slider_bounds : Z * Z;
  genre_options : list scalar;
  trend : outcome group_row;
  genre : outcome group_row;
  discussion : outcome discussed_row;
  search : option (outcome search_row)
}.

Definition run (db : database) (i : inputs) : page :=
  Page (fst (kpi_section db)) (snd (kpi_section db))
       (sidebar_years db) (sidebar_genres db)
       (trend_panel db i) (genre_panel db i)
       (discussion_panel db i) (search_panel db i).

End Dashboard.
Import Dashboard.

(* ================================================================== *)
(** * The specification's scenario store *)
(* ================================================================== *)

Module Scenario.

Definition alpha : movie :=
  Movie 1 (Some (SStr "Alpha")) (Some (SNum 1994)) (Array [SStr "Drama"])
        (Some (SNum (89 # 10))) (Some (SStr "")).

Definition beta : movie :=
  Movie 2 (Some (SStr "Beta")) (Some (SNum 2001)) (Array [SStr "Drama"; SStr "Comedy"])
        (Some (SNum (65 # 10))) (Some (SStr "")).

Definition store : list movie := [alpha; beta].

Definition open_filter : filter_state := FilterState (1990%Z, 2020%Z) [] 0.

Definition row_eqb (a b : group_row) : bool :=
  scalar_eqb (g_id a) (g_id b) && scalar_eqb (avgRating a) (avgRating b)
  && (movieCount a =? movieCount b)%nat.

Fixpoint rows_eqb (l1 l2 : list group_row) : bool :=
  match l1, l2 with
  | [], [] => true
  | a :: r1, b :: r2 => row_eqb a b && rows_eqb r1 r2
  | _, _ => false
  end.

End Scenario.

(* ================================================================== *)
(** * The filter predicate, in the specification's words *)
(* ================================================================== *)

Module Spec.

(** The year is a number within the selected range. *)
Definition year_in_range (fs : filter_state) (y : option scalar) : Prop :=
  exists q, y = Some (SNum q)
            /\ inject_Z (fst (year_range fs)) <= q
            /\ q <= inject_Z (snd (year_range fs)).

(** The rating is a number at or above the floor. *)
Definition rating_at_least (fs : filter_state) (r : option scalar) : Prop :=
  exists q, r = Some (SNum q) /\ rating_filter fs <= q.

(** [g] is one of the genres held by the field. *)
Definition has_genre (g : string) (f : field) : Prop :=
  f = Scalar (SStr g) \/ exists xs, f = Array xs /\ In (SStr g) xs.

(** When some genre is selected, one of the field's genres is selected. *)
Definition genre_selected (fs : filter_state) (f : field) : Prop :=
  selected_genres fs <> [] ->
  exists g, In g (selected_genres fs) /\ has_genre g f.

Definition filter_predicate (fs : filter_state)
    (y r : option scalar) (g : field) : Prop :=
  year_in_range fs y /\ rating_at_least fs r /\ genre_selected fs g.

Definition satisfies (fs : filter_state) (m : movie) : Prop :=
  filter_predicate fs (year m) (imdb_rating m) (genres m).



End Spec.
Import Spec.

(* ================================================================== *)
(** * Notions used in the statements *)
(* ================================================================== *)

(** Two keys of different groups. *)
Definition other_key (a b : scalar) : Prop := scalar_eqb a b = false.

(** Two elements in the order of a sort. *)
Definition ordered (A : Type) (leb : A -> A -> bool) (a b : A) : Prop :=
  leb a b = true.




(** Values that are all numbers. *)
Definition all_numbers (P : Q -> Prop) (vs : list scalar) : Prop :=
  Forall (fun v => exists q, v = SNum q /\ P q) vs.


(** The movies of one year among those that pass the filter. *)
Definition movies_of_year (fs : filter_state) (ms : list movie) (y : scalar) : list movie :=
  members year_value y (filter (matches (match_stage fs)) ms).

(** The movies that pass the filter, and their unwound documents. *)
Definition matched (fs : filter_state) (ms : list movie) : list movie :=
  filter (matches (match_stage fs)) ms.

Definition unwound (fs : filter_state) (ms : list movie) : list (movie * scalar) :=
  flat_map unwind_genres (matched fs ms).

(** The output document of a year group. *)
Definition trend_row (g : scalar * list movie) : group_row :=
  GroupRow (fst g) (avg (map rating_value (snd g))) (List.length (snd g)).

(** The genre entries a movie is unwound into. *)
Definition genre_entries (m : movie) : list scalar := map snd (unwind_genres m).

(** The output document of a genre group. *)
Definition genre_row (g : scalar * list (movie * scalar)) : group_row :=
  GroupRow (fst g) (avg (map (fun d => rating_value (fst d)) (snd g)))
           (List.length (snd g)).

(** The unwound documents of one genre among the movies that pass the filter. *)
Definition entries_of_genre (fs : filter_state) (ms : list movie) (g : scalar)
  : list (movie * scalar) :=
  members (@snd movie scalar) g
          (flat_map unwind_genres (filter (matches (match_stage fs)) ms)).


(** The number of comments that reference a movie. *)
Definition comments_on (cs : list comment) (m : movie) : nat :=
  List.length (filter (refers_to m) cs).

(** More comments come first. *)
Definition more_discussed (a b : joined) : Prop :=
  (comment_count b <= comment_count a)%nat.

(** The ranking before [$limit] and [$project]. *)
Definition ranking (fs : filter_state) (ms : list movie) (cs : list comment)
  : list joined :=
  sort (fun a b => (comment_count b <=? comment_count a)%nat)
       (filter (fun j => matches (match_stage fs) (j_movie j))
               (map (lookup_comments cs) ms)).


(** The sum of some counts. *)
Definition total (ns : list nat) : nat := fold_right Nat.add 0%nat ns.

(** The sum of [movieCount] over some rows. *)
Definition total_count (rows : list group_row) : nat := total (map movieCount rows).

(** A genre entry other than null. *)
Definition named (g : scalar) : bool := negb (scalar_eqb g SNull).

(** The non-null genre entries of a movie. *)
Definition named_entries (m : movie) : list scalar := filter named (genre_entries m).

(** How many entries of a movie fall into the bucket of [g]. *)
Definition occurrences (g : scalar) (m : movie) : nat :=
  List.length (filter (fun e => scalar_eqb e g) (genre_entries m)).

(** The movie has a genre entry other than null. *)
Definition has_named_entry (m : movie) : bool :=
  match named_entries m with
  | [] => false
  | _ :: _ => true
  end.

(** The calls of the KPI [try] block. *)
Definition kpi_calls : list call :=
  [CountMovies; ListCollections; CountUsers; CountComments; AvgRating].



(** The average the KPI block reads off the aggregate's answer. *)
Definition kpi_average (ms : list movie) : scalar :=
  match rating_pipeline ms with
  | [] => SNum 0
  | r :: _ => a_avgRating r
  end.

(** Two handles on the same data. *)
Definition same_store (db db' : database) : Prop :=
  movies db = movies db' /\ users db = users db' /\ comments db = comments db'.

(** ... on which the calls [cs] fail alike. *)
Definition agree_on (cs : list call) (db db' : database) : Prop :=
  same_store db db' /\ forall c, In c cs -> failure db c = failure db' c.

(** The calls behind the panels, as opposed to the sidebar's. *)
Definition panel_calls : list call :=
  kpi_calls ++ [TrendQuery; GenreQuery; DiscussionQuery; SearchQuery].

(** ** Further stores *)


(** A movie that passes the open filter and has no genre. *)
Definition genreless : movie :=
  Movie 9 (Some (SStr "Delta")) (Some (SNum 2000)) (Array [])
        (Some (SNum 8)) None.

(** A store with one comment on Alpha. *)
Definition commented (fails : call -> option string) : database :=
  Database Scenario.store (Some 3%nat) (Some [Comment 1 (Some 1%nat)]) fails.

(** The same store without failure, and with a failing rating aggregate. *)
Definition healthy : database := commented (fun _ => None).

Definition rating_outage : database :=
  commented (fun c => match c with AvgRating => Some "timeout" | _ => None end).

(** The choices of a viewer who searches nothing. *)
Definition viewer : inputs := Inputs Scenario.open_filter "" 20.

(** ** What the panels display of their rows *)

Module Views.

(** [df_genres.head(15)], sorted again for the table and the two charts. *)
Definition genre_table (rows : list group_row) : list group_row :=
  sort (fun a b => (movieCount b <=? movieCount a)%nat) (firstn 15 rows).

Definition genre_rating_chart (rows : list group_row) : list group_row :=
  sort (fun a b => scalar_leb (avgRating a) (avgRating b)) (firstn 15 rows).

Definition genre_count_chart (rows : list group_row) : list group_row :=
  sort (fun a b => (movieCount a <=? movieCount b)%nat) (firstn 15 rows).

(** The top-level keys of a document of the search cursor: [_id], and
    each projected field the movie has; the projection of ["imdb.rating"]
    comes back nested under ["imdb"]. *)
Definition present (o : option scalar) (key : string) : list string :=
  match o with
  | Some _ => [key]
  | None => []
  end.

Definition search_doc_keys (r : search_row) : list string :=
  ["_id"] ++ present (s_title r) "title" ++ present (s_year r) "year"
  ++ (match s_genres r with Missing => [] | _ => ["genres"] end)
  ++ present (s_rating r) "imdb" ++ present (s_plot r) "plot".

(** The columns of [pd.DataFrame(list(cursor))]: the keys of its documents. *)
Definition frame_columns (rows : list search_row) : list string :=
  flat_map search_doc_keys rows.

(** [df.rename(columns={"imdb.rating": "IMDb Rating"})]. *)
Definition renamed (cols : list string) : list string :=
  map (fun c => if String.eqb c "imdb.rating" then "IMDb Rating" else c) cols.

(** [display_cols]: the wanted columns that the frame has. *)
Definition display_cols (rows : list search_row) : list string :=
  filter (fun col => existsb (String.eqb col) (renamed (frame_columns rows)))
         ["title"; "year"; "genres"; "IMDb Rating"; "plot"].

End Views.

(** Fewer movies come first. *)
Definition fewer_movies (a b : group_row) : Prop := (movieCount a <= movieCount b)%nat.

(** ** Notions for the sidebar, the filters and the search text *)

(** What Python's [int] keeps of a number: the quotient truncated towards
    zero. *)
Definition trunc (q : Q) : Z := Z.quot (Qnum q) (Zpos (Qden q)).

(** The numeric years of the store. *)
Definition numeric_years (ms : list movie) : list Q := numbers (map year_value ms).


(** A filter state that restricts at least as much as another: a year
    range inside the other's, a floor at or above the other's, and genres
    selected among the other's (any selection when the other has none). *)
Definition narrower (fs' fs : filter_state) : Prop :=
  (fst (year_range fs) <= fst (year_range fs'))%Z
  /\ (snd (year_range fs') <= snd (year_range fs))%Z
  /\ rating_filter fs <= rating_filter fs'
  /\ (selected_genres fs = []
      \/ (selected_genres fs' <> []
          /\ incl (selected_genres fs') (selected_genres fs))).


(** No two movies of the store share an id. *)
Definition distinct_ids (ms : list movie) : Prop := NoDup (map m_id ms).

(** Two count rows, or two group rows, for different keys. *)
Definition other_option (a b : count_row) : Prop := other_key (n_id a) (n_id b).
Definition other_group (a b : group_row) : Prop := other_key (g_id a) (g_id b).

(** More movies come first. *)
Definition more_movies (a b : group_row) : Prop := (movieCount b <= movieCount a)%nat.

(** More comments come first, among the projected rows. *)
Definition more_comments (a b : discussed_row) : Prop :=
  (d_comment_count b <= d_comment_count a)%nat.

(** The row of a movie in the most-discussed ranking. *)
Definition discussed (cs : list comment) (m : movie) : discussed_row :=
  project_discussed (lookup_comments cs m).

(* ================================================================== *)
(** * Facts about [$match] *)
(* ================================================================== *)

Section MatchFacts.

Variable fs : filter_state.

Lemma sat_in_selected (f : field) (vs : list string) :
  field_sat (CIn vs) f = true <-> exists g, In g vs /\ has_genre g f.
Proof.
  destruct f as [ | s | xs ]; simpl.
  - split; [ discriminate | ].
    intros (g & _ & [H | (xs & H & _)]); discriminate.
  - destruct s as [ | q | t ]; simpl.
    + split; [ discriminate | ].
      intros (g & _ & [H | (xs & H & _)]); discriminate.
    + split; [ discriminate | ].
      intros (g & _ & [H | (xs & H & _)]); discriminate.
    + rewrite existsb_exists. split.
      * intros (g & Hin & Heq). apply String.eqb_eq in Heq. subst g.
        exists t. split; [ assumption | left; reflexivity ].
      * intros (g & Hin & [H | (xs & H & _)]); [ | discriminate ].
        injection H as ->. exists g. split; [ assumption | apply String.eqb_refl ].
  - rewrite existsb_exists. split.
    + intros (s & Hin & Hs). destruct s as [ | q | t ]; try discriminate.
      simpl in Hs. apply existsb_exists in Hs. destruct Hs as (g & Hg & Heq).
      apply String.eqb_eq in Heq. subst g.
      exists t. split; [ assumption | right; exists xs; auto ].
    + intros (g & Hin & [H | (ys & H & Hys)]); [ discriminate | ].
      injection H as <-. exists (SStr g). split; [ assumption | ].
      simpl. apply existsb_exists. exists g. split; [ assumption | apply String.eqb_refl ].
Qed.

Lemma year_bounds_spec (m : movie) :
  forallb (fun c => field_sat c (get_field PYear m))
          [CGte (inject_Z (fst (year_range fs))); CLte (inject_Z (snd (year_range fs)))] = true
  <-> year_in_range fs (year m).
Proof.
  unfold year_in_range. simpl. destruct (year m) as [ [ | q | t ] | ]; simpl;
    try (split; [ discriminate | intros (q' & H & _); discriminate ]).
  rewrite andb_true_r, andb_true_iff, !Qle_bool_iff. split.
  - intros [H1 H2]. exists q. auto.
  - intros (q' & H & H1 & H2). injection H as <-. auto.
Qed.

Lemma rating_bound_spec (m : movie) :
  forallb (fun c => field_sat c (get_field PRating m))
          [CGte (rating_filter fs); CTypeNumber] = true
  <-> rating_at_least fs (imdb_rating m).
Proof.
  unfold rating_at_least. simpl. destruct (imdb_rating m) as [ [ | q | t ] | ]; simpl;
    try (split; [ discriminate | intros (q' & H & _); discriminate ]).
  rewrite !andb_true_r, Qle_bool_iff. split.
  - intros H. exists q. auto.
  - intros (q' & H & H1). injection H as <-. assumption.
Qed.

(** [match_stage] decides the filter predicate. *)
Lemma matches_satisfies (m : movie) :
  matches (match_stage fs) m = true <-> satisfies fs m.
Proof.
  unfold matches, match_stage, satisfies, filter_predicate, genre_selected.
  pose proof (year_bounds_spec m) as Hy.
  pose proof (rating_bound_spec m) as Hr.
  cbn [forallb] in Hy, Hr.
  rewrite forallb_app. cbn [forallb fst snd].
  assert (E : forall b1 b2 b3 : bool,
             b1 && (b2 && true) && b3 = true
             <-> b1 = true /\ b2 = true /\ b3 = true).
  { intros [] [] []; simpl; intuition discriminate. }
  rewrite E, Hy, Hr. clear E Hy Hr.
  destruct (selected_genres fs) as [ | g0 gs ] eqn:Hsel.
  - simpl. intuition congruence.
  - cbn [forallb fst snd get_field]. rewrite !andb_true_r, sat_in_selected.
    split.
    + intros (Hy & Hr & Hg). auto.
    + intros (Hy & Hr & Hg). repeat split; auto. apply Hg. discriminate.
Qed.



End MatchFacts.

(* ================================================================== *)
(** * Facts about values, [$group], [$sort] and [$avg] *)
(* ================================================================== *)

Lemma scalar_eqb_refl (a : scalar) : scalar_eqb a a = true.
Proof.
  destruct a; simpl; [ reflexivity | apply Qeq_bool_refl | apply String.eqb_refl ].
Qed.

Lemma scalar_eqb_sym (a b : scalar) : scalar_eqb a b = scalar_eqb b a.
Proof.
  destruct a, b; simpl; try reflexivity.
  - apply Qeq_bool_comm.
  - apply String.eqb_sym.
Qed.

Lemma scalar_eqb_trans (a b c : scalar) :
  scalar_eqb a b = true -> scalar_eqb b c = true -> scalar_eqb a c = true.
Proof.
  destruct a, b, c; simpl; try discriminate; try reflexivity.
  - apply Qeq_bool_trans.
  - intros H1 H2. apply String.eqb_eq in H1, H2. subst. apply String.eqb_refl.
Qed.

Section GroupFacts.

Variable A : Type.
Variable key : A -> scalar.

Lemma FOP_filter (B : Type) (R : B -> B -> Prop) (p : B -> bool) (l : list B) :
  ForallOrdPairs R l -> ForallOrdPairs R (filter p l).
Proof.
  induction 1 as [ | a l Ha Hl IH ]; simpl; [ constructor | ].
  destruct (p a); [ | assumption ].
  constructor; [ | assumption ].
  rewrite Forall_forall in *. intros x Hx. apply filter_In in Hx. apply Ha, Hx.
Qed.

Lemma FOP_map (B C : Type) (R : C -> C -> Prop) (f : B -> C) (l : list B) :
  ForallOrdPairs (fun a b => R (f a) (f b)) l -> ForallOrdPairs R (map f l).
Proof.
  induction 1 as [ | a l Ha Hl IH ]; simpl; constructor; [ | assumption ].
  rewrite Forall_forall in *. intros x Hx. apply in_map_iff in Hx.
  destruct Hx as (y & <- & Hy). apply Ha, Hy.
Qed.

Lemma distinct_incl (ks : list scalar) (k : scalar) :
  In k (distinct ks) -> In k ks.
Proof.
  induction ks as [ | k0 r IH ]; simpl; [ tauto | ].
  intros [H | H]; [ left; assumption | right ].
  apply filter_In in H. apply IH, H.
Qed.

(** Every key is represented among the distinct keys. *)
Lemma distinct_covers (ks : list scalar) (k : scalar) :
  In k ks -> exists k', In k' (distinct ks) /\ scalar_eqb k k' = true.
Proof.
  induction ks as [ | k0 r IH ]; simpl; [ tauto | ].
  intros [-> | H].
  - exists k. split; [ left; reflexivity | apply scalar_eqb_refl ].
  - destruct (IH H) as (k' & Hin & Heq).
    destruct (scalar_eqb k' k0) eqn:E.
    + exists k0. split; [ left; reflexivity | ].
      apply scalar_eqb_trans with k'; assumption.
    + exists k'. split; [ | assumption ].
      right. apply filter_In. split; [ assumption | ]. rewrite E. reflexivity.
Qed.

(** No two of the distinct keys are equal. *)
Lemma distinct_apart (ks : list scalar) : ForallOrdPairs other_key (distinct ks).
Proof.
  induction ks as [ | k0 r IH ]; simpl; constructor.
  - apply Forall_forall. intros k Hk. apply filter_In in Hk.
    destruct Hk as [_ Hk]. unfold other_key. rewrite scalar_eqb_sym.
    destruct (scalar_eqb k k0); [ discriminate | reflexivity ].
  - apply FOP_filter, IH.
Qed.

Lemma group_by_In (docs : list A) (k : scalar) (ds : list A) :
  In (k, ds) (group_by key docs) ->
  ds = members key k docs /\ exists d, In d docs /\ key d = k.
Proof.
  unfold group_by. intros H. apply in_map_iff in H.
  destruct H as (k' & Heq & Hin). injection Heq as <- <-.
  split; [ reflexivity | ].
  apply distinct_incl, in_map_iff in Hin. destruct Hin as (d & Hd & Hin).
  exists d. auto.
Qed.

Lemma members_In (docs : list A) (k : scalar) (d : A) :
  In d (members key k docs) <-> In d docs /\ scalar_eqb (key d) k = true.
Proof. unfold members. apply filter_In. Qed.

(** A group is never empty. *)
Lemma group_by_nonempty (docs : list A) (k : scalar) (ds : list A) :
  In (k, ds) (group_by key docs) -> ds <> [].
Proof.
  intros H. apply group_by_In in H. destruct H as (-> & d & Hd & <-).
  intros E. assert (Hm : In d (members key (key d) docs)).
  { apply members_In. split; [ assumption | apply scalar_eqb_refl ]. }
  rewrite E in Hm. destruct Hm.
Qed.

(** Every document falls into a group. *)
Lemma group_by_covers (docs : list A) (d : A) :
  In d docs ->
  exists k, In (k, members key k docs) (group_by key docs)
            /\ scalar_eqb (key d) k = true.
Proof.
  intros Hd.
  destruct (distinct_covers (map key docs) (key d)) as (k & Hk & Heq).
  { apply in_map, Hd. }
  exists k. split; [ | assumption ].
  unfold group_by. apply in_map_iff. exists k. auto.
Qed.

Lemma group_by_keys (docs : list A) :
  map fst (group_by key docs) = distinct (map key docs).
Proof.
  unfold group_by. rewrite map_map. simpl. apply map_id.
Qed.

(** Grouping everything under one constant key. *)
Lemma group_by_constant (k0 : scalar) (docs : list A) :
  (forall d, key d = k0) ->
  group_by key docs = match docs with [] => [] | _ :: _ => [(k0, docs)] end.
Proof.
  intros Hk. unfold group_by.
  assert (Hm : members key k0 docs = docs).
  { unfold members. induction docs as [ | d r IH ]; simpl; [ reflexivity | ].
    rewrite Hk, scalar_eqb_refl. f_equal. assumption. }
  assert (Hd : distinct (map key docs) = match docs with [] => [] | _ :: _ => [k0] end).
  { clear Hm. induction docs as [ | d r IH ]; simpl; [ reflexivity | ].
    rewrite IH, Hk. destruct r; simpl; [ reflexivity | ].
    rewrite scalar_eqb_refl. reflexivity. }
  rewrite Hd. destruct docs; simpl; [ reflexivity | ].
  simpl in Hm. rewrite Hm. reflexivity.
Qed.

(** The sizes of the groups of some pairwise different keys add up to the
    number of documents that fall under one of these keys. *)
Lemma group_sizes (docs : list A) (ks : list scalar) :
  ForallOrdPairs other_key ks ->
  fold_right Nat.add 0%nat (map (fun k => List.length (members key k docs)) ks)
  = List.length (filter (fun d => existsb (scalar_eqb (key d)) ks) docs).
Proof.
  induction 1 as [ | k ks Hk Hks IH ]; simpl.
  - induction docs; simpl; auto.
  - rewrite IH. clear IH. unfold members.
    induction docs as [ | d r IHr ]; simpl; [ reflexivity | ].
    destruct (scalar_eqb (key d) k) eqn:E; simpl.
    + assert (Hno : existsb (scalar_eqb (key d)) ks = false).
      { apply not_true_is_false. intros Hex. apply existsb_exists in Hex.
        destruct Hex as (k' & Hin & Heq).
        rewrite Forall_forall in Hk. specialize (Hk k' Hin). unfold other_key in Hk.
        rewrite scalar_eqb_sym in E.
        rewrite (scalar_eqb_trans _ _ _ E Heq) in Hk. discriminate. }
      rewrite Hno. simpl. rewrite IHr. reflexivity.
    + destruct (existsb (scalar_eqb (key d)) ks); simpl; rewrite <- IHr; lia.
Qed.

End GroupFacts.

Section SortFacts.

Variable A : Type.
Variable leb : A -> A -> bool.

Lemma insert_perm (x : A) (l : list A) : Permutation (insert leb x l) (x :: l).
Proof.
  induction l as [ | y r IH ]; simpl; [ reflexivity | ].
  destruct (leb x y); [ reflexivity | ].
  rewrite IH. apply perm_swap.
Qed.

Lemma sort_perm (l : list A) : Permutation (sort leb l) l.
Proof.
  induction l as [ | x r IH ]; simpl; [ reflexivity | ].
  rewrite insert_perm. constructor. assumption.
Qed.

Lemma sort_In (l : list A) (x : A) : In x (sort leb l) <-> In x l.
Proof.
  split; apply Permutation_in; [ | symmetry ]; apply sort_perm.
Qed.


(** ** Order of the output, for a total preorder *)

Hypothesis leb_total : forall a b, leb a b = false -> leb b a = true.
Hypothesis leb_trans :
  forall a b c, leb a b = true -> leb b c = true -> leb a c = true.

Lemma insert_sorted (x : A) (l : list A) :
  StronglySorted (ordered leb) l -> StronglySorted (ordered leb) (insert leb x l).
Proof.
  induction 1 as [ | y r Hr IH Hy ]; simpl.
  - repeat constructor.
  - destruct (leb x y) eqn:E.
    + constructor; [ constructor; assumption | ].
      constructor; [ exact E | ].
      rewrite Forall_forall in *. intros z Hz. apply leb_trans with y; auto.
      apply Hy, Hz.
    + constructor; [ assumption | ].
      rewrite Forall_forall in *. intros z Hz.
      apply (Permutation_in _ (insert_perm x r)) in Hz.
      destruct Hz as [<- | Hz]; [ apply leb_total, E | apply Hy, Hz ].
Qed.

Lemma sort_sorted (l : list A) : StronglySorted (ordered leb) (sort leb l).
Proof.
  induction l as [ | x r IH ]; simpl; [ constructor | apply insert_sorted, IH ].
Qed.

End SortFacts.

Section StrictSortFacts.

(** When no two elements are equivalent for the order, the output is
    strictly increasing.  Transitivity is only needed on the elements at
    hand, which [good] describes. *)

Variable A : Type.
Variable leb : A -> A -> bool.
Variable good : A -> Prop.

Hypothesis leb_trans_good :
  forall a b c, good a -> good b -> good c ->
                leb a b = true -> leb b c = true -> leb a c = true.



End StrictSortFacts.

Section AvgFacts.









End AvgFacts.

(* ================================================================== *)
(** * Rating trend *)
(* ================================================================== *)

Section OrderFacts.


Lemma StronglySorted_on (B : Type) (R R' : B -> B -> Prop) (good : B -> Prop)
    (l : list B) :
  (forall a b, good a -> good b -> R a b -> R' a b) ->
  Forall good l -> StronglySorted R l -> StronglySorted R' l.
Proof.
  intros HR Hgood Hs. induction Hs as [ | a l Hl IH Ha ]; constructor.
  - apply IH. inversion Hgood; assumption.
  - inversion Hgood as [ | ? ? Ga Gl ]; subst.
    rewrite Forall_forall in *. intros x Hx. apply HR; auto.
Qed.


End OrderFacts.

Section TrendFacts.

Variable fs : filter_state.
Variable ms : list movie.

Lemma trend_pipeline_unfold :
  trend_pipeline fs ms
  = sort (fun a b => scalar_leb (g_id a) (g_id b))
         (map trend_row (group_by year_value (matched fs ms))).
Proof. reflexivity. Qed.

(** A trend row is the summary of the matched movies of its year. *)
Lemma trend_row_inv (r : group_row) :
  In r (trend_pipeline fs ms) ->
  r = trend_row (g_id r, movies_of_year fs ms (g_id r))
  /\ exists m, In m (matched fs ms) /\ year_value m = g_id r.
Proof.
  rewrite trend_pipeline_unfold, sort_In, in_map_iff.
  intros ((k & ds) & <- & Hin). apply group_by_In in Hin.
  destruct Hin as (-> & d & Hd & <-). simpl. split; [ reflexivity | ].
  exists d. auto.
Qed.




End TrendFacts.


(* ================================================================== *)
(** * Genre performance *)
(* ================================================================== *)

Section GenreFacts.

Variable fs : filter_state.
Variable ms : list movie.

Lemma genre_pipeline_unfold :
  genre_pipeline fs ms
  = sort (fun a b => (movieCount b <=? movieCount a)%nat)
         (filter (fun r => negb (scalar_eqb (g_id r) SNull))
                 (map genre_row
                      (group_by (@snd movie scalar)
                                (unwound fs ms)))).
Proof. reflexivity. Qed.



(** A genre row has a non-null genre and summarises the unwound documents
    of that genre. *)
Lemma genre_row_inv (r : group_row) :
  In r (genre_pipeline fs ms) ->
  scalar_eqb (g_id r) SNull = false
  /\ r = genre_row (g_id r, entries_of_genre fs ms (g_id r))
  /\ exists d, In d (unwound fs ms) /\ snd d = g_id r.
Proof.
  rewrite genre_pipeline_unfold, sort_In, filter_In, in_map_iff.
  intros (((k & ds) & <- & Hin) & Hk). apply group_by_In in Hin.
  destruct Hin as (-> & d & Hd & <-). simpl in *. split; [ | split ].
  - destruct (scalar_eqb (snd d) SNull); [ discriminate | reflexivity ].
  - reflexivity.
  - exists d. auto.
Qed.

End GenreFacts.

(* ================================================================== *)
(** * Averages of filtered movies *)
(* ================================================================== *)




(* ================================================================== *)
(** * Most discussed movies *)
(* ================================================================== *)

Lemma firstn_subset (B : Type) (n : nat) (l : list B) (x : B) :
  In x (firstn n l) -> In x l.
Proof.
  intros H. rewrite <- (firstn_skipn n l). apply in_or_app. left. exact H.
Qed.

Section DiscussionFacts.

Variable fs : filter_state.
Variable ms : list movie.
Variable cs : list comment.

Lemma discussion_pipeline_unfold :
  discussion_pipeline fs ms cs = map project_discussed (firstn 15 (ranking fs ms cs)).
Proof. reflexivity. Qed.

Lemma ranking_In (j : joined) :
  In j (ranking fs ms cs) <->
  exists m, In m ms /\ satisfies fs m /\ j = lookup_comments cs m.
Proof.
  unfold ranking. rewrite sort_In, filter_In, in_map_iff. split.
  - intros ((m & <- & Hm) & Hsat). simpl in Hsat.
    apply matches_satisfies in Hsat. exists m. auto.
  - intros (m & Hm & Hsat & ->). split; [ exists m; auto | ].
    simpl. apply matches_satisfies, Hsat.
Qed.

Lemma ranking_sorted : StronglySorted more_discussed (ranking fs ms cs).
Proof.
  pose (leb := fun a b : joined => (comment_count b <=? comment_count a)%nat).
  assert (H : StronglySorted (ordered leb) (ranking fs ms cs)).
  { apply sort_sorted; unfold leb; intros *.
    - rewrite Nat.leb_gt, Nat.leb_le. lia.
    - rewrite !Nat.leb_le. lia. }
  eapply StronglySorted_on with (good := fun _ => True); [ | | exact H ].
  - intros a b _ _. unfold ordered, leb, more_discussed. apply Nat.leb_le.
  - apply Forall_forall. auto.
Qed.



End DiscussionFacts.


(* ================================================================== *)
(** * Rows and the filter predicate *)
(* ================================================================== *)



(* ================================================================== *)
(** * Bounds on the mean ratings *)
(* ================================================================== *)




(* ================================================================== *)
(** * Genre counts *)
(* ================================================================== *)

Section CountFacts.

Lemma total_perm (l l' : list nat) : Permutation l l' -> total l = total l'.
Proof.
  induction 1; simpl; try lia.
Qed.

Lemma filter_map_comm (B C : Type) (f : B -> C) (p : C -> bool) (l : list B) :
  filter p (map f l) = map f (filter (fun x => p (f x)) l).
Proof.
  induction l as [ | x r IH ]; simpl; [ reflexivity | ].
  destruct (p (f x)); simpl; congruence.
Qed.

Lemma length_filter_flat_map (B C : Type) (f : B -> list C) (p : C -> bool)
    (l : list B) :
  List.length (filter p (flat_map f l))
  = total (map (fun x => List.length (filter p (f x))) l).
Proof.
  induction l as [ | x r IH ]; simpl; [ reflexivity | ].
  rewrite filter_app, length_app, IH. reflexivity.
Qed.

Lemma total_at_least (B : Type) (n : B -> nat) (p : B -> bool) (l : list B) :
  (forall x, p x = true -> (1 <= n x)%nat) ->
  (List.length (filter p l) <= total (map n l))%nat.
Proof.
  intros Hp. induction l as [ | x r IH ]; simpl; [ lia | ].
  destruct (p x) eqn:E; simpl; [ apply Hp in E | ]; lia.
Qed.

Variable fs : filter_state.
Variable ms : list movie.

(** The size of a bucket: the entries of the matched movies that fall
    into it, each movie counting once per such entry. *)
Lemma bucket_size (g : scalar) :
  List.length (entries_of_genre fs ms g) = total (map (occurrences g) (matched fs ms)).
Proof.
  unfold entries_of_genre, members. fold (matched fs ms).
  rewrite length_filter_flat_map. f_equal. apply map_ext. intros m.
  unfold occurrences, genre_entries. rewrite filter_map_comm, length_map. reflexivity.
Qed.

(** The counts of the returned rows add up to the number of non-null
    genre entries of the matched movies. *)
Lemma genre_counts_total :
  total_count (genre_pipeline fs ms)
  = total (map (fun m => List.length (named_entries m)) (matched fs ms)).
Proof.
  unfold total_count. rewrite genre_pipeline_unfold.
  rewrite (total_perm (Permutation_map movieCount (sort_perm _ _))).
  unfold group_by.
  rewrite map_map, filter_map_comm, map_map. cbn [genre_row g_id movieCount fst snd].
  set (ks := filter (fun k => negb (scalar_eqb k SNull))
                    (distinct (map (@snd movie scalar) (unwound fs ms)))).
  unfold total at 1.
  rewrite (group_sizes (@snd movie scalar) (unwound fs ms) (ks := ks))
    by (apply FOP_filter, distinct_apart).
  assert (E : filter (fun d => existsb (scalar_eqb (snd d)) ks) (unwound fs ms)
              = filter (fun d => named (snd d)) (unwound fs ms)).
  { apply filter_ext_in. intros d Hd. unfold named.
    destruct (scalar_eqb (snd d) SNull) eqn:Enull; simpl.
    - apply not_true_is_false. intros Hex. apply existsb_exists in Hex.
      destruct Hex as (k & Hk & Heq). apply filter_In in Hk. destruct Hk as [_ Hk].
      rewrite scalar_eqb_sym in Heq.
      rewrite (scalar_eqb_trans _ _ _ Heq Enull) in Hk. discriminate.
    - destruct (distinct_covers (map (@snd movie scalar) (unwound fs ms)) (snd d))
        as (k & Hk & Heq); [ apply in_map, Hd | ].
      apply existsb_exists. exists k. split; [ | exact Heq ].
      apply filter_In. split; [ exact Hk | ].
      destruct (scalar_eqb k SNull) eqn:Ek; [ | reflexivity ].
      rewrite (scalar_eqb_trans _ _ _ Heq Ek) in Enull. discriminate. }
  rewrite E. unfold unwound. rewrite length_filter_flat_map.
  f_equal. apply map_ext. intros m.
  unfold named_entries, genre_entries. rewrite filter_map_comm, length_map. reflexivity.
Qed.

(** A matched movie has a non-null entry as soon as some genre is selected. *)
Lemma selected_has_named_entry (m : movie) :
  selected_genres fs <> [] -> satisfies fs m -> has_named_entry m = true.
Proof.
  intros Hsel (_ & _ & Hg). destruct (Hg Hsel) as (g & _ & Hhas).
  assert (Hin : In (SStr g) (named_entries m)).
  { unfold named_entries. apply filter_In. split; [ | reflexivity ].
    unfold genre_entries, unwind_genres.
    destruct Hhas as [-> | (xs & -> & Hin)].
    - simpl. left. reflexivity.
    - rewrite map_map. simpl. rewrite map_id. exact Hin. }
  unfold has_named_entry. destruct (named_entries m); [ destruct Hin | reflexivity ].
Qed.

End CountFacts.

(** C5, amended.  Every returned genre row has a non-null genre, and its
    count is the number of entries of the matched movies that fall into
    its bucket, so a movie with genres [A, B] counts once in A and once in
    B, and every non-null genre of a matched movie has its row.  The counts
    add up to the number of non-null genre entries of the matched movies,
    which is at least the number of matched movies that have such an
    entry, and at least the number of matched movies when some genre is
    selected. *)
Theorem genre_fan_out (fs : filter_state) (ms : list movie) :
  let matched := filter (matches (match_stage fs)) ms in
  let rows := genre_pipeline fs ms in
  (forall r, In r rows ->
     scalar_eqb (g_id r) SNull = false
     /\ movieCount r = total (map (occurrences (g_id r)) matched))
  /\ (forall m g, In m matched -> In g (named_entries m) ->
        exists r, In r rows /\ scalar_eqb g (g_id r) = true)
  /\ total_count rows = total (map (fun m => List.length (named_entries m)) matched)
  /\ (List.length (filter has_named_entry matched) <= total_count rows)%nat
  /\ (selected_genres fs <> [] -> (List.length matched <= total_count rows)%nat).
Proof.
  intros matched rows.
  assert (Hsum := genre_counts_total fs ms). fold matched rows in Hsum.
  assert (Hnamed : (List.length (filter has_named_entry matched) <= total_count rows)%nat).
  { rewrite Hsum. apply total_at_least. intros m Hm.
    unfold has_named_entry in Hm. destruct (named_entries m); [ discriminate | simpl; lia ]. }
  split; [ | split; [ | split; [ exact Hsum | split; [ exact Hnamed | ] ] ] ].
  - intros r Hr. apply genre_row_inv in Hr. destruct Hr as (Hnull & Hrow & _).
    split; [ exact Hnull | ].
    rewrite Hrow at 1. cbn [genre_row movieCount snd]. apply bucket_size.
  - intros m g Hm Hg. unfold named_entries in Hg. apply filter_In in Hg.
    destruct Hg as [Hg Hnamed_g]. unfold genre_entries in Hg.
    apply in_map_iff in Hg. destruct Hg as (d & <- & Hd).
    set (unwound := flat_map unwind_genres matched).
    assert (Hin : In d unwound).
    { apply in_flat_map. exists m. auto. }
    destruct (group_by_covers (@snd movie scalar) unwound d Hin) as (k & Hk & Heq).
    exists (genre_row (k, members (@snd movie scalar) k unwound)).
    split; [ | exact Heq ].
    unfold rows. rewrite genre_pipeline_unfold, sort_In, filter_In.
    split; [ apply in_map, Hk | ].
    cbn [genre_row g_id fst]. unfold named in Hnamed_g.
    destruct (scalar_eqb k SNull) eqn:Ek; [ | reflexivity ].
    rewrite (scalar_eqb_trans _ _ _ Heq Ek) in Hnamed_g. discriminate.
  - intros Hsel. etransitivity; [ | exact Hnamed ].
    rewrite (filter_ext_in has_named_entry (fun _ => true)).
    + clear. induction matched; simpl; lia.
    + intros m Hm. apply selected_has_named_entry with fs; [ exact Hsel | ].
      apply filter_In in Hm. apply matches_satisfies, Hm.
Qed.

(** C5, as stated, fails: a matched movie without genres is in no bucket. *)
Lemma genre_counts_below_movies :
  let fs := Scenario.open_filter in
  ~ (List.length (filter (matches (match_stage fs)) [genreless])
     <= total_count (genre_pipeline fs [genreless]))%nat.
Proof.
  vm_compute. lia.
Qed.

(* ================================================================== *)
(** * Title search *)
(* ================================================================== *)

Section RegexFacts.

Import Regex.






End RegexFacts.





Lemma filter_none (B : Type) (p : B -> bool) (l : list B) :
  (forall x, In x l -> p x = false) -> filter p l = [].
Proof.
  induction l as [ | x r IH ]; intros H; [ reflexivity | ].
  cbn [filter]. rewrite (H x) by (left; reflexivity).
  apply IH. intros y Hy. apply H. right. exact Hy.
Qed.

(** C7.  With an empty search text the search panel runs nothing, whatever
    the store holds and whether or not the search call would fail; with a
    non-empty text that no movie matches, the panel shows the "no movies
    found" notice; the two outcomes differ. *)
Theorem empty_search_not_run (db : database) (i : inputs) :
  (search_query i = "" -> search (run db i) = Some NotRun)
  /\ (search_query i <> "" ->
      Regex.supported (search_query i) = true ->
      failure db SearchQuery = None ->
      (forall m, In m (movies db) ->
                 matches (search_filter (search_query i) (filters i)) m = false) ->
      search (run db i)
      = Some (Notice Warning "❌ No movies found matching your search criteria."))
  /\ @NotRun search_row
     <> Notice Warning "❌ No movies found matching your search criteria.".
Proof.
  split; [ | split ].
  - intros H. simpl. unfold search_panel. rewrite H. reflexivity.
  - intros Hne Hsup Hok Hnone. simpl. unfold search_panel.
    apply String.eqb_neq in Hne. rewrite Hne.
    unfold search_find. rewrite Hsup.
    assert (E : filter (matches (search_filter (search_query i) (filters i))) (movies db) = []).
    { apply filter_none, Hnone. }
    rewrite E. unfold cursor_limit, request. rewrite Hok.
    destruct (result_limit i =? 0)%nat; [ reflexivity | ].
    rewrite firstn_nil. reflexivity.
  - discriminate.
Qed.

(* ================================================================== *)
(** * Key performance indicators *)
(* ================================================================== *)

Section KpiFacts.





(** What the [try] block returns when it returns. *)
Lemma kpi_queries_ok (db : database) (k : kpis) :
  kpi_queries db = Ok k ->
  movies_count k = List.length (movies db)
  /\ avg_rating k = kpi_average (movies db)
  /\ (comments_count k = List.length (comment_docs db)).
Proof.
  unfold kpi_queries, request, bind, collection_names, comment_docs, kpi_average.
  destruct (failure db CountMovies); [ discriminate | ].
  destruct (failure db ListCollections); [ discriminate | ].
  destruct (users db), (comments db); simpl;
    repeat match goal with
           | |- context [failure db ?c] => destruct (failure db c)
           end;
    try discriminate; intros H; injection H as <-; simpl; auto.
Qed.


(** A failing rating aggregate makes the block raise, unless an earlier
    call already did. *)
Lemma kpi_queries_rating_failure (db : database) (e : string) :
  failure db AvgRating = Some e -> exists e', kpi_queries db = Raise e'.
Proof.
  intros H. unfold kpi_queries, request, bind. rewrite H.
  destruct (failure db CountMovies); [ eexists; reflexivity | ].
  destruct (failure db ListCollections); [ eexists; reflexivity | ].
  destruct (existsb (String.eqb "users") (collection_names db));
    destruct (existsb (String.eqb "comments") (collection_names db));
    repeat match goal with
           | |- context [failure db ?c] => destruct (failure db c)
           end;
    eexists; reflexivity.
Qed.

End KpiFacts.


(** C9.  When the KPI block raises, the error is shown, the four values
    are all 0, and the discussion panel is not attempted, whatever comments
    the store holds. *)
Theorem kpi_failure_zeroes (db : database) (i : inputs) (e : string) :
  kpi_queries db = Raise e ->
  kpi_error (run db i) = Some (String.append "Error calculating metrics: " e)
  /\ kpi_values (run db i) = Kpis 0 0 0 (SNum 0)
  /\ discussion (run db i) = NotRun.
Proof.
  intros H. unfold run, discussion_panel, kpi_section. rewrite H. simpl. auto.
Qed.

(* ================================================================== *)
(** * Failures and the panels *)
(* ================================================================== *)

Section PanelFacts.

Variables db db' : database.
Variable i : inputs.

Lemma kpi_section_agree :
  agree_on kpi_calls db db' -> kpi_section db = kpi_section db'.
Proof.
  intros ((Hm & Hu & Hc) & Hf).
  unfold kpi_section, kpi_queries, request, collection_names, user_total, comment_docs.
  rewrite Hm, Hu, Hc.
  rewrite (Hf CountMovies), (Hf ListCollections), (Hf CountUsers),
    (Hf CountComments), (Hf AvgRating) by (simpl; tauto).
  reflexivity.
Qed.

Lemma trend_agree :
  agree_on [TrendQuery] db db' -> trend_panel db i = trend_panel db' i.
Proof.
  intros ((Hm & _) & Hf). unfold trend_panel, request.
  rewrite Hm, (Hf TrendQuery) by (simpl; tauto). reflexivity.
Qed.

Lemma genre_agree :
  agree_on [GenreQuery] db db' -> genre_panel db i = genre_panel db' i.
Proof.
  intros ((Hm & _) & Hf). unfold genre_panel, request.
  rewrite Hm, (Hf GenreQuery) by (simpl; tauto). reflexivity.
Qed.

Lemma search_agree :
  agree_on [SearchQuery] db db' -> search_panel db i = search_panel db' i.
Proof.
  intros ((Hm & _) & Hf). unfold search_panel, request.
  rewrite Hm, (Hf SearchQuery) by (simpl; tauto). reflexivity.
Qed.

Lemma discussion_agree :
  agree_on (DiscussionQuery :: kpi_calls) db db' ->
  discussion_panel db i = discussion_panel db' i.
Proof.
  intros (Hs & Hf). unfold discussion_panel.
  rewrite kpi_section_agree by (split; [ exact Hs | intros c Hc; apply Hf; right; exact Hc ]).
  destruct Hs as (Hm & _ & Hc). unfold request, comment_docs.
  rewrite Hm, Hc, (Hf DiscussionQuery) by (left; reflexivity). reflexivity.
Qed.

End PanelFacts.

(** C8, amended.  The trend, genre and search panels each depend on the
    failure of their own query only, and the discussion panel on its own
    query and on the KPI block, whose failure removes it.  A failing query
    shows in its own panel as an error carrying the exception's message;
    a failing KPI block shows its error; a query that succeeds with no row
    shows a notice, which is not an error.  Failures of the two sidebar
    aggregates change no panel and show nowhere: the slider bounds fall
    back to 1900 and 2025 and the genre options to none. *)
Theorem panels_recover_locally (db db' : database) (i : inputs) :
  (agree_on [TrendQuery] db db' -> trend (run db i) = trend (run db' i))
  /\ (agree_on [GenreQuery] db db' -> genre (run db i) = genre (run db' i))
  /\ (agree_on [SearchQuery] db db' -> search (run db i) = search (run db' i))
  /\ (agree_on (DiscussionQuery :: kpi_calls) db db' ->
      discussion (run db i) = discussion (run db' i))
  /\ (forall e, failure db TrendQuery = Some e ->
        trend (run db i) = Failed (String.append "Error generating trend chart: " e))
  /\ (forall e, failure db GenreQuery = Some e ->
        genre (run db i) = Failed (String.append "Error generating genre analysis: " e))
  /\ (forall e, failure db DiscussionQuery = Some e ->
        (0 < comments_count (kpi_values (run db i)))%nat ->
        discussion (run db i)
        = Failed (String.append "Error generating comments analysis: " e))
  /\ (forall e, failure db SearchQuery = Some e ->
        search_query i <> "" -> Regex.supported (search_query i) = true ->
        search (run db i) = Some (Failed (String.append "Search error: " e)))
  /\ (forall e, kpi_queries db = Raise e ->
        kpi_error (run db i) = Some (String.append "Error calculating metrics: " e))
  /\ (failure db TrendQuery = None ->
      trend_pipeline (filters i) (movies db) = [] ->
      trend (run db i) = Notice Info "No data available for the selected filters.")
  /\ (failure db GenreQuery = None ->
      genre_pipeline (filters i) (movies db) = [] ->
      genre (run db i) = Notice Warning "No genre data available for current filters.")
  /\ (failure db DiscussionQuery = None ->
      (0 < comments_count (kpi_values (run db i)))%nat ->
      discussion_pipeline (filters i) (movies db) (comment_docs db) = [] ->
      discussion (run db i)
      = Notice Info "No comment data available for selected filters.")
  /\ (agree_on panel_calls db db' ->
      kpi_error (run db i) = kpi_error (run db' i)
      /\ kpi_values (run db i) = kpi_values (run db' i)
      /\ trend (run db i) = trend (run db' i)
      /\ genre (run db i) = genre (run db' i)
      /\ discussion (run db i) = discussion (run db' i)
      /\ search (run db i) = search (run db' i))
  /\ (forall e, failure db YearStats = Some e ->
        slider_bounds (run db i) = (1900%Z, 2025%Z))
  /\ (forall e, failure db GenreList = Some e -> genre_options (run db i) = []).
Proof.
  assert (Hsub : forall cs, (forall c, In c cs -> In c panel_calls) ->
                            agree_on panel_calls db db' -> agree_on cs db db').
  { intros cs Hcs (Hs & Hf). split; [ exact Hs | ]. intros c Hc. apply Hf, Hcs, Hc. }
  cbn [run trend genre discussion search kpi_error kpi_values slider_bounds genre_options].
  repeat match goal with |- _ /\ _ => split end.
  - apply trend_agree.
  - apply genre_agree.
  - apply search_agree.
  - apply discussion_agree.
  - intros e He. unfold trend_panel, request. rewrite He. reflexivity.
  - intros e He. unfold genre_panel, request. rewrite He. reflexivity.
  - intros e He Hpos. unfold discussion_panel, request.
    apply Nat.ltb_lt in Hpos. rewrite Hpos, He. reflexivity.
  - intros e He Hne Hsup. unfold search_panel, search_find, request.
    apply String.eqb_neq in Hne. rewrite Hne, Hsup, He. reflexivity.
  - intros e He. unfold kpi_section. rewrite He. reflexivity.
  - intros Hok Hrows. unfold trend_panel, request. rewrite Hok, Hrows. reflexivity.
  - intros Hok Hrows. unfold genre_panel, request. rewrite Hok, Hrows. reflexivity.
  - intros Hok Hpos Hrows. unfold discussion_panel, request.
    apply Nat.ltb_lt in Hpos. rewrite Hpos, Hok, Hrows. reflexivity.
  - intros H.
    assert (Hk : kpi_section db = kpi_section db').
    { apply kpi_section_agree, Hsub, H.
      unfold panel_calls. intros c Hc. apply in_or_app. left. exact Hc. }
    rewrite Hk. repeat match goal with |- _ /\ _ => split end; try reflexivity.
    + apply trend_agree, Hsub, H. simpl. intuition.
    + apply genre_agree, Hsub, H. simpl. intuition.
    + apply discussion_agree, Hsub, H. simpl. intuition.
    + apply search_agree, Hsub, H. simpl. intuition.
  - intros e He. unfold sidebar_years, request. rewrite He. reflexivity.
  - intros e He. unfold sidebar_genres, request. rewrite He. reflexivity.
Qed.

(** C8, as stated, fails: the two handles differ only in the failure of
    the KPI rating aggregate, yet the discussion panel, whose own query
    would succeed, is not shown. *)
Lemma kpi_failure_hides_discussion :
  agree_on [TrendQuery; GenreQuery; DiscussionQuery; SearchQuery;
            YearStats; GenreList; CountMovies; ListCollections;
            CountUsers; CountComments] healthy rating_outage
  /\ (exists rows, rows <> [] /\ discussion (run healthy viewer) = Rendered rows)
  /\ discussion (run rating_outage viewer) = NotRun.
Proof.
  split; [ | split ].
  - split; [ repeat split | ].
    intros c Hc. simpl in Hc. destruct c; try reflexivity.
    repeat (destruct Hc as [Hc | Hc]; [ discriminate | ]). destruct Hc.
  - eexists. split; [ | reflexivity ]. discriminate.
  - reflexivity.
Qed.

(* ================================================================== *)
(** * The theorems at the scenario store *)
(* ================================================================== *)

(** The genre rows of the scenario: Drama with count 2 and mean 7.7,
    Comedy with count 1 and mean 6.5. *)
Example scenario_genres :
  Scenario.rows_eqb
    (genre_pipeline Scenario.open_filter Scenario.store)
    [GroupRow (SStr "Drama") (SNum (77 # 10)) 2;
     GroupRow (SStr "Comedy") (SNum (65 # 10)) 1] = true.
Proof. reflexivity. Qed.

(** With a floor of 7.0 the trend keeps 1994 only. *)
Example scenario_trend :
  Scenario.rows_eqb
    (trend_pipeline (FilterState (1990%Z, 2020%Z) [] 7) Scenario.store)
    [GroupRow (SNum 1994) (SNum (89 # 10)) 1] = true.
Proof. reflexivity. Qed.

(** The text "alp", in any case, finds exactly Alpha. *)
Example scenario_search :
  search_find "alp" 20 Scenario.open_filter Scenario.store
  = Some [project_search Scenario.alpha]
  /\ search_find "ALP" 20 Scenario.open_filter Scenario.store
     = Some [project_search Scenario.alpha].
Proof. split; reflexivity. Qed.

(** A text that no title contains gives the notice; no text gives nothing. *)
Example scenario_no_match :
  search (run healthy (Inputs Scenario.open_filter "zzz" 20))
  = Some (Notice Warning "❌ No movies found matching your search criteria.")
  /\ search (run healthy viewer) = Some NotRun.
Proof. split; reflexivity. Qed.

(** The KPI values of the store with one comment. *)
Example scenario_kpis :
  kpi_queries healthy = Ok (Kpis 2 3 1 (SNum (1540 # 200))).
Proof. reflexivity. Qed.

(** A failing year aggregate leaves the page as it is for a store without
    any numeric year. *)
Example scenario_sidebar_silent :
  slider_bounds
    (run (commented (fun c => match c with YearStats => Some "timeout" | _ => None end))
         viewer)
  = slider_bounds (run (Database [] None None (fun _ => None)) viewer).
Proof. reflexivity. Qed.

Lemma kpi_failure_zeroes_witness :
  kpi_error (run rating_outage viewer)
  = Some (String.append "Error calculating metrics: " "timeout")
  /\ kpi_values (run rating_outage viewer) = Kpis 0 0 0 (SNum 0)
  /\ discussion (run rating_outage viewer) = NotRun.
Proof.
  apply (@kpi_failure_zeroes rating_outage viewer "timeout"). reflexivity.
Defined.


(* ================================================================== *)
(** * The sidebar: year bounds *)
(* ================================================================== *)

Section YearBoundFacts.

Lemma trunc_mono (p q : Q) : p <= q -> (trunc p <= trunc q)%Z.
Proof.
  unfold Qle, trunc. destruct p as [a b], q as [c d]. simpl. intros H.
  rewrite <- (Z.quot_mul_cancel_r a (Zpos b) (Zpos d)) by lia.
  rewrite <- (Z.quot_mul_cancel_r c (Zpos d) (Zpos b)) by lia.
  rewrite (Z.mul_comm (Zpos d) (Zpos b)).
  apply Z.quot_le_mono; lia.
Qed.

Lemma trunc_integer (z : Z) : trunc (inject_Z z) = z.
Proof. unfold trunc. simpl. apply Z.quot_1_r. Qed.

(** The least of some numbers, folded from a first candidate. *)
Lemma min_fold (vs : list scalar) (a : Q) :
  all_numbers (fun _ => True) vs ->
  exists q, fold_left (pick scalar_leb) vs (SNum a) = SNum q
            /\ q <= a
            /\ all_numbers (fun x => q <= x) vs
            /\ (q = a \/ In (SNum q) vs).
Proof.
  intros H. revert a. induction H as [ | v r (x & -> & _) Hr IH ]; intros a.
  - exists a. repeat split; try constructor; auto. apply Qle_refl.
  - cbn [fold_left pick scalar_leb].
    destruct (Qle_bool x a) eqn:E.
    + apply Qle_bool_iff in E. destruct (IH x) as (q & Hq & Hle & Hall & Hin).
      exists q. split; [ exact Hq | ]. split; [ lra | ]. split.
      * constructor; [ exists x; auto | exact Hall ].
      * right. destruct Hin as [-> | Hin]; [ left; reflexivity | right; exact Hin ].
    + assert (Hlt : a < x).
      { destruct (Qlt_le_dec a x) as [Hlt | Hle]; [ exact Hlt | ].
        apply Qle_bool_iff in Hle. congruence. }
      destruct (IH a) as (q & Hq & Hle & Hall & Hin).
      exists q. split; [ exact Hq | ]. split; [ exact Hle | ]. split.
      * constructor; [ exists x; split; [ reflexivity | lra ] | exact Hall ].
      * destruct Hin as [-> | Hin]; [ left; reflexivity | right; right; exact Hin ].
Qed.

(** The greatest of some numbers, folded from a first candidate. *)
Lemma max_fold (vs : list scalar) (a : Q) :
  all_numbers (fun _ => True) vs ->
  exists q, fold_left (pick (fun u v => scalar_leb v u)) vs (SNum a) = SNum q
            /\ a <= q
            /\ all_numbers (fun x => x <= q) vs
            /\ (q = a \/ In (SNum q) vs).
Proof.
  intros H. revert a. induction H as [ | v r (x & -> & _) Hr IH ]; intros a.
  - exists a. repeat split; try constructor; auto. apply Qle_refl.
  - cbn [fold_left pick scalar_leb].
    destruct (Qle_bool a x) eqn:E.
    + apply Qle_bool_iff in E. destruct (IH x) as (q & Hq & Hle & Hall & Hin).
      exists q. split; [ exact Hq | ]. split; [ lra | ]. split.
      * constructor; [ exists x; auto | exact Hall ].
      * right. destruct Hin as [-> | Hin]; [ left; reflexivity | right; exact Hin ].
    + assert (Hlt : x < a).
      { destruct (Qlt_le_dec x a) as [Hlt | Hle]; [ exact Hlt | ].
        apply Qle_bool_iff in Hle. congruence. }
      destruct (IH a) as (q & Hq & Hle & Hall & Hin).
      exists q. split; [ exact Hq | ]. split; [ exact Hle | ]. split.
      * constructor; [ exists x; split; [ reflexivity | lra ] | exact Hall ].
      * destruct Hin as [-> | Hin]; [ left; reflexivity | right; right; exact Hin ].
Qed.

Lemma type_number_year (m : movie) :
  matches [(PYear, [CTypeNumber])] m = true <-> exists q, year m = Some (SNum q).
Proof.
  unfold matches. simpl. destruct (year m) as [ [ | q | t ] | ]; simpl;
    split; try discriminate; try (intros (q' & H); discriminate).
  - intros _. exists q. reflexivity.
  - reflexivity.
Qed.

(** The years the bounds aggregate looks at. *)
Lemma dated_years (ms : list movie) :
  all_numbers (fun _ => True)
    (map year_value (filter (matches [(PYear, [CTypeNumber])]) ms)).
Proof.
  apply Forall_forall. intros v Hv. apply in_map_iff in Hv.
  destruct Hv as (m & <- & Hm). apply filter_In in Hm. destruct Hm as [_ Hm].
  apply type_number_year in Hm. destruct Hm as (q & Hq).
  exists q. unfold year_value. rewrite Hq. auto.
Qed.

(** The answer of the bounds aggregate: nothing without a numeric year,
    else one document with the least and the greatest numeric year. *)
Lemma year_stats_answer (ms : list movie) :
  (year_stats_pipeline ms = []
   /\ forall m q, In m ms -> year m <> Some (SNum q))
  \/ exists lo hi rest,
       year_stats_pipeline ms = YearRow SNull (SNum lo) (SNum hi) :: rest
       /\ lo <= hi
       /\ forall m q, In m ms -> year m = Some (SNum q) -> lo <= q /\ q <= hi.
Proof.
  unfold year_stats_pipeline.
  rewrite (@group_by_constant movie (fun _ : movie => SNull) SNull) by reflexivity.
  pose proof (dated_years ms) as Hall.
  destruct (filter (matches [(PYear, [CTypeNumber])]) ms) as [ | m0 r ] eqn:E.
  - left. split; [ reflexivity | ]. intros m q Hm Hq.
    assert (Hin : In m (filter (matches [(PYear, [CTypeNumber])]) ms)).
    { apply filter_In. split; [ exact Hm | ]. apply type_number_year. exists q. exact Hq. }
    rewrite E in Hin. destruct Hin.
  - right. cbn [map fst snd] in *.
    inversion Hall as [ | v vs (y0 & Hy0 & _) Hrest ]; subst.
    destruct (min_fold y0 Hrest) as (lo & Hlo & Hlo0 & Hlo_all & _).
    destruct (max_fold y0 Hrest) as (hi & Hhi & Hhi0 & Hhi_all & _).
    exists lo, hi, []. split; [ | split ].
    + unfold min_value, max_value. cbn [fold_left]. rewrite Hy0.
      cbn [pick]. rewrite Hlo, Hhi. reflexivity.
    + lra.
    + intros m q Hm Hq.
      assert (Hin : In m (m0 :: r)).
      { rewrite <- E. apply filter_In. split; [ exact Hm | ].
        apply type_number_year. exists q. exact Hq. }
      assert (Hv : year_value m = SNum q) by (unfold year_value; rewrite Hq; reflexivity).
      destruct Hin as [<- | Hin].
      * rewrite Hv in Hy0. injection Hy0 as <-. split; assumption.
      * unfold all_numbers in Hlo_all, Hhi_all. rewrite Forall_forall in Hlo_all, Hhi_all.
        assert (Hmem : In (SNum q) (map year_value r)).
        { rewrite <- Hv. apply in_map, Hin. }
        destruct (Hlo_all _ Hmem) as (x & Hx & Hxl). injection Hx as <-.
        destruct (Hhi_all _ Hmem) as (x & Hx & Hxh). injection Hx as <-.
        split; assumption.
Qed.

End YearBoundFacts.



(** X2.  When the bounds aggregate answers, every numeric year of the
    store, truncated to an integer, lies within the slider bounds; a store
    without numeric year gets 1900 and 2025. *)
Theorem slider_bounds_cover_years (db : database) :
  failure db YearStats = None ->
  (forall m q, In m (movies db) -> year m = Some (SNum q) ->
     (fst (sidebar_years db) <= trunc q <= snd (sidebar_years db))%Z)
  /\ ((forall m q, In m (movies db) -> year m <> Some (SNum q)) ->
      sidebar_years db = (1900%Z, 2025%Z)).
Proof.
  intros Hok. unfold sidebar_years, request, bind. rewrite Hok.
  destruct (year_stats_answer (movies db)) as [(E & Hnone) | (lo & hi & rest & E & Hle & Hall)];
    rewrite E; simpl.
  - split; [ | reflexivity ]. intros m q Hm Hq. destruct (Hnone m q Hm Hq).
  - split.
    + intros m q Hm Hq. destruct (Hall m q Hm Hq) as [H1 H2].
      split; apply trunc_mono; assumption.
    + intros Hnone. exfalso.
      (* the least year is the year of some movie *)
      clear Hle. revert E. unfold year_stats_pipeline.
      rewrite (@group_by_constant movie (fun _ : movie => SNull) SNull) by reflexivity.
      destruct (filter (matches [(PYear, [CTypeNumber])]) (movies db)) as [ | m0 r ] eqn:Ef;
        [ discriminate | ].
      intros _.
      assert (Hin : In m0 (filter (matches [(PYear, [CTypeNumber])]) (movies db)))
        by (rewrite Ef; left; reflexivity).
      apply filter_In in Hin. destruct Hin as [Hm0 Hy].
      apply type_number_year in Hy. destruct Hy as (q & Hq).
      exact (Hnone m0 q Hm0 Hq).
Qed.

Lemma slider_bounds_cover_years_witness :
  (forall m q, In m (movies healthy) -> year m = Some (SNum q) ->
     (fst (sidebar_years healthy) <= trunc q <= snd (sidebar_years healthy))%Z)
  /\ ((forall m q, In m (movies healthy) -> year m <> Some (SNum q)) ->
      sidebar_years healthy = (1900%Z, 2025%Z)).
Proof.
  apply (@slider_bounds_cover_years healthy). reflexivity.
Defined.


(* ================================================================== *)
(** * Distinct keys through [$sort], [$limit] and filters *)
(* ================================================================== *)

Section DistinctFacts.

Variable B : Type.
Variable R : B -> B -> Prop.
Hypothesis R_sym : forall a b, R a b -> R b a.

Lemma FOP_perm (l l' : list B) :
  Permutation l l' -> ForallOrdPairs R l -> ForallOrdPairs R l'.
Proof.
  induction 1 as [ | x l l' Hp IH | x y l | l l' l'' H1 IH1 H2 IH2 ]; intros H.
  - exact H.
  - inversion H as [ | ? ? Hx Hl ]; subst. constructor; [ | apply IH, Hl ].
    apply (Permutation_Forall Hp), Hx.
  - inversion H as [ | ? ? Hy Hl ]; subst.
    inversion Hl as [ | ? ? Hx Hl' ]; subst.
    inversion Hy as [ | ? ? Hyx Hy' ]; subst.
    constructor; [ constructor; [ apply R_sym, Hyx | exact Hx ] | ].
    constructor; assumption.
  - apply IH2, IH1, H.
Qed.

Lemma FOP_firstn (n : nat) (l : list B) :
  ForallOrdPairs R l -> ForallOrdPairs R (firstn n l).
Proof.
  intros H. revert n. induction H as [ | a l Ha Hl IH ]; intros [ | n ]; simpl;
    try constructor.
  - rewrite Forall_forall in *. intros x Hx. apply Ha. eapply firstn_subset, Hx.
  - apply IH.
Qed.

End DistinctFacts.

Lemma other_key_sym (a b : scalar) : other_key a b -> other_key b a.
Proof. unfold other_key. rewrite scalar_eqb_sym. auto. Qed.

(** The keys of the groups of a [$group] are pairwise different. *)
Lemma group_keys_apart (A : Type) (key : A -> scalar) (docs : list A) :
  ForallOrdPairs (fun a b : scalar * list A => other_key (fst a) (fst b))
                 (group_by key docs).
Proof.
  unfold group_by.
  assert (H := distinct_apart (map key docs)).
  induction H as [ | k ks Hk Hks IH ]; simpl; constructor; [ | exact IH ].
  apply Forall_forall. intros g Hg. apply in_map_iff in Hg.
  destruct Hg as (k' & <- & Hk'). simpl. rewrite Forall_forall in Hk. apply Hk, Hk'.
Qed.

(** Every document falls under exactly the keys [$group] lists. *)
Lemma group_sizes_all (A : Type) (key : A -> scalar) (docs : list A) :
  total (map (fun g => List.length (snd g)) (group_by key docs)) = List.length docs.
Proof.
  unfold group_by. rewrite map_map. cbn [snd]. unfold total.
  rewrite (group_sizes key docs (distinct_apart (map key docs))).
  rewrite (filter_ext_in _ (fun _ => true)).
  - clear. induction docs; simpl; congruence.
  - intros d Hd.
    destruct (distinct_covers (map key docs) (key d)) as (k & Hk & Heq);
      [ apply in_map, Hd | ].
    apply existsb_exists. exists k. auto.
Qed.

(* ================================================================== *)
(** * The sidebar: genre options *)
(* ================================================================== *)

(** X4.  The sidebar offers at most 50 genre options; every option is a
    non-null, non-empty genre entry of some movie of the store, and no two
    options are equal.  When the aggregate fails there is no option. *)
Theorem genre_options_sound (db : database) :
  (List.length (sidebar_genres db) <= 50)%nat
  /\ (forall g, In g (sidebar_genres db) ->
        truthy g = true
        /\ exists m, In m (movies db) /\ In g (genre_entries m))
  /\ ForallOrdPairs other_key (sidebar_genres db)
  /\ (forall e, failure db GenreList = Some e -> sidebar_genres db = []).
Proof.
  unfold sidebar_genres, request.
  destruct (failure db GenreList) as [ e | ] eqn:Ef.
  { split; [ simpl; lia | ].
    split; [ intros g [] | ].
    split; [ constructor | reflexivity ]. }
  set (grouped := map (fun g : scalar * list (movie * scalar) =>
                         CountRow (fst g) (List.length (snd g)))
                      (group_by (@snd movie scalar)
                                (flat_map unwind_genres (movies db)))).
  assert (Hpipe : genre_list_pipeline (movies db)
                  = firstn 50 (sort (fun a b => (n_count b <=? n_count a)%nat) grouped))
    by reflexivity.
  rewrite Hpipe. split; [ | split; [ | split ] ].
  - rewrite length_map.
    etransitivity; [ apply filter_length_le | apply firstn_le_length ].
  - intros g Hg. apply in_map_iff in Hg. destruct Hg as (r & <- & Hr).
    apply filter_In in Hr. destruct Hr as [Hr Ht]. split; [ exact Ht | ].
    apply firstn_subset, sort_In in Hr. unfold grouped in Hr.
    apply in_map_iff in Hr. destruct Hr as ((k & ds) & <- & Hin).
    apply group_by_In in Hin. destruct Hin as (_ & d & Hd & <-).
    apply in_flat_map in Hd. destruct Hd as (m & Hm & Hd).
    exists m. split; [ exact Hm | ]. simpl. apply in_map, Hd.
  - apply FOP_map, FOP_filter.
    apply FOP_firstn.
    apply (FOP_perm (R := other_option)) with (l := grouped).
    + intros a b. apply other_key_sym.
    + symmetry. apply sort_perm.
    + unfold grouped. apply FOP_map. apply group_keys_apart.
  - discriminate.
Qed.

(* ================================================================== *)
(** * Order and counts of the grouped rows *)
(* ================================================================== *)

(** Sorting rows by movie count, in either direction. *)
Lemma sort_by_count_desc (rows : list group_row) :
  StronglySorted more_movies
    (sort (fun a b => (movieCount b <=? movieCount a)%nat) rows).
Proof.
  pose (leb := fun a b : group_row => (movieCount b <=? movieCount a)%nat).
  fold leb.
  eapply StronglySorted_on with (good := fun _ => True) (R := ordered leb).
  - intros a b _ _. unfold ordered, leb, more_movies. apply Nat.leb_le.
  - apply Forall_forall. auto.
  - apply sort_sorted; unfold leb; intros *.
    + rewrite Nat.leb_gt, Nat.leb_le. lia.
    + rewrite !Nat.leb_le. lia.
Qed.

Lemma sort_by_count_asc (rows : list group_row) :
  StronglySorted fewer_movies
    (sort (fun a b => (movieCount a <=? movieCount b)%nat) rows).
Proof.
  pose (leb := fun a b : group_row => (movieCount a <=? movieCount b)%nat).
  fold leb.
  eapply StronglySorted_on with (good := fun _ => True) (R := ordered leb).
  - intros a b _ _. unfold ordered, leb, fewer_movies. apply Nat.leb_le.
  - apply Forall_forall. auto.
  - apply sort_sorted; unfold leb; intros *.
    + rewrite Nat.leb_gt, Nat.leb_le. lia.
    + rewrite !Nat.leb_le. lia.
Qed.

Lemma genre_sorted (fs : filter_state) (ms : list movie) :
  StronglySorted more_movies (genre_pipeline fs ms).
Proof. rewrite genre_pipeline_unfold. apply sort_by_count_desc. Qed.

(** X5.  The genre rows come by decreasing movie count, no two rows are
    for the same genre, and every row counts at least one movie. *)
Theorem genre_rows_ranked (fs : filter_state) (ms : list movie) :
  StronglySorted more_movies (genre_pipeline fs ms)
  /\ ForallOrdPairs other_group (genre_pipeline fs ms)
  /\ forall r, In r (genre_pipeline fs ms) -> (1 <= movieCount r)%nat.
Proof.
  split; [ | split ].
  - apply genre_sorted.
  - rewrite genre_pipeline_unfold.
    eapply (FOP_perm (R := other_group)).
    + intros a b. apply other_key_sym.
    + symmetry. apply sort_perm.
    + apply FOP_filter, FOP_map, group_keys_apart.
  - intros r Hr. apply genre_row_inv in Hr. destruct Hr as (_ & Hrow & d & Hd & Hg).
    rewrite Hrow. cbn [genre_row movieCount snd].
    assert (Hin : In d (entries_of_genre fs ms (g_id r))).
    { apply members_In. split; [ exact Hd | rewrite Hg; apply scalar_eqb_refl ]. }
    destruct (entries_of_genre fs ms (g_id r)); [ destruct Hin | simpl; lia ].
Qed.

Lemma trend_total (fs : filter_state) (ms : list movie) :
  total_count (trend_pipeline fs ms) = List.length (matched fs ms).
Proof.
  unfold total_count. rewrite trend_pipeline_unfold.
  rewrite (total_perm (Permutation_map movieCount (sort_perm _ _))).
  rewrite map_map. cbn [trend_row movieCount]. apply group_sizes_all.
Qed.

(** X6.  The movie counts of the trend rows add up to the number of
    movies that pass the filter, and every row counts at least one. *)
Theorem trend_counts_partition (fs : filter_state) (ms : list movie) :
  total_count (trend_pipeline fs ms) = List.length (matched fs ms)
  /\ forall r, In r (trend_pipeline fs ms) -> (1 <= movieCount r)%nat.
Proof.
  split.
  - apply trend_total.
  - intros r Hr. apply trend_row_inv in Hr. destruct Hr as (Hrow & m & Hm & Hy).
    rewrite Hrow. cbn [trend_row movieCount snd].
    assert (Hin : In m (movies_of_year fs ms (g_id r))).
    { apply members_In. split; [ exact Hm | rewrite Hy; apply scalar_eqb_refl ]. }
    destruct (movies_of_year fs ms (g_id r)); [ destruct Hin | simpl; lia ].
Qed.

(* ================================================================== *)
(** * The most-discussed ranking: what [$limit 15] keeps *)
(* ================================================================== *)

Section PrefixFacts.

Variable B : Type.
Variable R : B -> B -> Prop.

(** In a sorted list every kept element precedes every dropped one. *)
Lemma sorted_kept_dropped (n : nat) (l : list B) (x y : B) :
  StronglySorted R l -> In x (firstn n l) -> In y (skipn n l) -> R x y.
Proof.
  intros H. revert n. induction H as [ | a l Hl IH Ha ]; intros n Hx Hy.
  - rewrite firstn_nil in Hx. destruct Hx.
  - destruct n as [ | n ]; [ destruct Hx | ]. simpl in Hx, Hy.
    destruct Hx as [<- | Hx].
    + rewrite Forall_forall in Ha. apply Ha.
      rewrite <- (firstn_skipn n l). apply in_or_app. right. exact Hy.
    + apply (IH n); assumption.
Qed.

Lemma StronglySorted_firstn (n : nat) (l : list B) :
  StronglySorted R l -> StronglySorted R (firstn n l).
Proof.
  intros H. revert n. induction H as [ | a l Hl IH Ha ]; intros [ | n ]; simpl;
    try constructor.
  - apply IH.
  - rewrite Forall_forall in *. intros x Hx. apply Ha. eapply firstn_subset, Hx.
Qed.

Lemma StronglySorted_map (C : Type) (R' : C -> C -> Prop) (f : B -> C) (l : list B) :
  (forall a b, R a b -> R' (f a) (f b)) ->
  StronglySorted R l -> StronglySorted R' (map f l).
Proof.
  intros Hf. induction 1 as [ | a l Hl IH Ha ]; simpl; constructor; [ exact IH | ].
  rewrite Forall_forall in *. intros y Hy. apply in_map_iff in Hy.
  destruct Hy as (x & <- & Hx). apply Hf, Ha, Hx.
Qed.

Lemma NoDup_map_filter (C : Type) (f : B -> C) (p : B -> bool) (l : list B) :
  NoDup (map f l) -> NoDup (map f (filter p l)).
Proof.
  induction l as [ | x r IH ]; simpl; intros H; [ constructor | ].
  inversion H as [ | ? ? Hx Hr ]; subst.
  destruct (p x); simpl; [ constructor | ]; try (apply IH, Hr).
  intros Hin. apply Hx. apply in_map_iff in Hin. destruct Hin as (y & Hy & Hin).
  apply in_map_iff. exists y. split; [ exact Hy | ]. apply filter_In in Hin. apply Hin.
Qed.

Lemma NoDup_map_firstn (C : Type) (f : B -> C) (n : nat) (l : list B) :
  NoDup (map f l) -> NoDup (map f (firstn n l)).
Proof.
  revert n. induction l as [ | x r IH ]; intros [ | n ] H; simpl; try constructor.
  - inversion H as [ | ? ? Hx Hr ]; subst.
    intros Hin. apply Hx. apply in_map_iff in Hin. destruct Hin as (y & Hy & Hin).
    apply in_map_iff. exists y. split; [ exact Hy | ]. eapply firstn_subset, Hin.
  - inversion H; subst. apply IH. assumption.
Qed.

End PrefixFacts.

(** X7.  The most-discussed panel gets at most 15 rows, by decreasing
    comment count, and they are the most discussed: a movie that passes
    the filter either has its row among them or has no more comments than
    any row shown. *)
Theorem discussion_top_fifteen (fs : filter_state) (ms : list movie)
    (cs : list comment) :
  let rows := discussion_pipeline fs ms cs in
  (List.length rows <= 15)%nat
  /\ StronglySorted more_comments rows
  /\ (forall m, In m ms -> satisfies fs m ->
        In (discussed cs m) rows
        \/ forall r, In r rows -> (comments_on cs m <= d_comment_count r)%nat).
Proof.
  intros rows. unfold rows. rewrite discussion_pipeline_unfold.
  split; [ | split ].
  - rewrite length_map. apply firstn_le_length.
  - apply StronglySorted_map with (R := more_discussed).
    + intros a b H. exact H.
    + apply StronglySorted_firstn, ranking_sorted.
  - intros m Hm Hsat.
    assert (Hin : In (lookup_comments cs m) (ranking fs ms cs)).
    { apply ranking_In. exists m. auto. }
    rewrite <- (firstn_skipn 15 (ranking fs ms cs)) in Hin.
    apply in_app_or in Hin. destruct Hin as [Hin | Hin].
    + left. unfold discussed. apply in_map, Hin.
    + right. intros r Hr. apply in_map_iff in Hr. destruct Hr as (j & <- & Hj).
      exact (@sorted_kept_dropped joined more_discussed 15 (ranking fs ms cs) j
               (lookup_comments cs m) (ranking_sorted fs ms cs) Hj Hin).
Qed.

(** X8.  When no two movies of the store share an id, no two rows of the
    most-discussed ranking and no two rows of a search result are for the
    same movie. *)
Theorem rows_of_distinct_movies (fs : filter_state) (ms : list movie)
    (cs : list comment) :
  distinct_ids ms ->
  NoDup (map d_id (discussion_pipeline fs ms cs))
  /\ forall text n rows,
       search_find text n fs ms = Some rows -> NoDup (map s_id rows).
Proof.
  unfold distinct_ids. intros Hids. split.
  - rewrite discussion_pipeline_unfold, map_map.
    change (fun j => d_id (project_discussed j)) with (fun j : joined => m_id (j_movie j)).
    apply NoDup_map_firstn.
    apply (Permutation_NoDup
             (Permutation_map _ (Permutation_sym (sort_perm _ _)))).
    apply NoDup_map_filter. rewrite map_map. exact Hids.
  - intros text n rows. unfold search_find.
    destruct (Regex.supported text); [ | discriminate ].
    intros H. injection H as <-. rewrite map_map.
    change (fun m => s_id (project_search m)) with m_id.
    unfold cursor_limit. destruct (n =? 0)%nat.
    + apply NoDup_map_filter, Hids.
    + apply NoDup_map_firstn, NoDup_map_filter, Hids.
Qed.

Lemma rows_of_distinct_movies_witness :
  NoDup (map d_id (discussion_pipeline Scenario.open_filter Scenario.store []))
  /\ forall text n rows,
       search_find text n Scenario.open_filter Scenario.store = Some rows ->
       NoDup (map s_id rows).
Proof.
  apply (@rows_of_distinct_movies Scenario.open_filter Scenario.store []).
  unfold distinct_ids. simpl. repeat constructor; simpl; intuition discriminate.
Defined.

(* ================================================================== *)
(** * Search: the limit and the case of letters *)
(* ================================================================== *)

(** X9.  Raising the result limit only appends rows: for a positive limit
    the search result is the first [n] rows of the result for any larger
    limit. *)
Theorem search_limit_prefix (text : string) (fs : filter_state) (ms : list movie)
    (n n' : nat) :
  Regex.supported text = true ->
  (0 < n <= n')%nat ->
  exists rows',
    search_find text n' fs ms = Some rows'
    /\ search_find text n fs ms = Some (firstn n rows').
Proof.
  intros Hsup [Hpos Hle]. unfold search_find, cursor_limit. rewrite Hsup.
  destruct (Nat.eqb_spec n 0) as [-> | _]; [ lia | ].
  destruct (Nat.eqb_spec n' 0) as [-> | _]; [ lia | ].
  eexists. split; [ reflexivity | ].
  rewrite firstn_map, firstn_firstn, Nat.min_l by exact Hle. reflexivity.
Qed.

Lemma search_limit_prefix_witness :
  exists rows',
    search_find "a" 20 Scenario.open_filter Scenario.store = Some rows'
    /\ search_find "a" 5 Scenario.open_filter Scenario.store = Some (firstn 5 rows').
Proof.
  apply (@search_limit_prefix "a" Scenario.open_filter Scenario.store 5 20).
  - reflexivity.
  - lia.
Defined.

Section CaseFacts.

Import Regex.











End CaseFacts.



(* ================================================================== *)
(** * Narrowing the filters *)
(* ================================================================== *)

Lemma narrower_satisfies (fs' fs : filter_state) (m : movie) :
  narrower fs' fs -> satisfies fs' m -> satisfies fs m.
Proof.
  intros (Hlo & Hhi & Hr & Hg) ((y & Hy & Hy1 & Hy2) & (q & Hq & Hq1) & Hsel).
  rewrite Zle_Qle in Hlo, Hhi.
  split; [ | split ].
  - exists y. split; [ exact Hy | split; lra ].
  - exists q. split; [ exact Hq | lra ].
  - intros Hne. destruct Hg as [Hnone | (Hsome & Hincl)]; [ congruence | ].
    destruct (Hsel Hsome) as (g & Hin & Hhas). exists g. split; [ apply Hincl, Hin | exact Hhas ].
Qed.

Lemma filter_length_mono (B : Type) (p q : B -> bool) (l : list B) :
  (forall x, In x l -> p x = true -> q x = true) ->
  (List.length (filter p l) <= List.length (filter q l))%nat.
Proof.
  induction l as [ | x r IH ]; intros H; simpl; [ lia | ].
  assert (IH' := IH (fun y Hy => H y (or_intror Hy))).
  destruct (p x) eqn:E.
  - rewrite (H x (or_introl eq_refl) E). simpl. lia.
  - destruct (q x); simpl; lia.
Qed.

(** X11.  Narrowing the filters never brings a movie in: the movies that
    pass the narrower filter pass the wider one, so there are no more of
    them, the trend counts add up to no more, and the most-discussed
    ranking and the search hits are taken among those of the wider one. *)
Theorem narrower_filter_shrinks (fs' fs : filter_state) (ms : list movie)
    (cs : list comment) :
  narrower fs' fs ->
  incl (matched fs' ms) (matched fs ms)
  /\ (List.length (matched fs' ms) <= List.length (matched fs ms))%nat
  /\ (total_count (trend_pipeline fs' ms) <= total_count (trend_pipeline fs ms))%nat
  /\ incl (ranking fs' ms cs) (ranking fs ms cs)
  /\ (forall text m, matches (search_filter text fs') m = true ->
                     matches (search_filter text fs) m = true).
Proof.
  intros Hn.
  assert (Hm : forall m, matches (match_stage fs') m = true ->
                         matches (match_stage fs) m = true).
  { intros m. rewrite !matches_satisfies. apply narrower_satisfies, Hn. }
  assert (Hlen : (List.length (matched fs' ms) <= List.length (matched fs ms))%nat).
  { unfold matched. apply filter_length_mono. intros m _. apply Hm. }
  split; [ | split; [ exact Hlen | split; [ | split ] ] ].
  - intros m. unfold matched. rewrite !filter_In. intros [H1 H2]. auto.
  - rewrite !trend_total. exact Hlen.
  - intros j. rewrite !ranking_In. intros (m & H1 & H2 & H3).
    exists m. split; [ exact H1 | split; [ | exact H3 ] ].
    apply (narrower_satisfies Hn H2).
  - intros text m. unfold search_filter.
    change (field_sat (CRegexI text) (opt_field (title m)) && true
            && matches (match_stage fs') m = true ->
            field_sat (CRegexI text) (opt_field (title m)) && true
            && matches (match_stage fs) m = true).
    rewrite !andb_true_iff. intros [H1 H2]. auto.
Qed.

Lemma narrower_filter_shrinks_witness :
  let fs' := FilterState (1990%Z, 2000%Z) ["Drama"] 7 in
  let fs := Scenario.open_filter in
  let ms := Scenario.store in
  let cs := @nil comment in
  incl (matched fs' ms) (matched fs ms)
  /\ (List.length (matched fs' ms) <= List.length (matched fs ms))%nat
  /\ (total_count (trend_pipeline fs' ms) <= total_count (trend_pipeline fs ms))%nat
  /\ incl (ranking fs' ms cs) (ranking fs ms cs)
  /\ (forall text m, matches (search_filter text fs') m = true ->
                     matches (search_filter text fs) m = true).
Proof.
  apply (@narrower_filter_shrinks (FilterState (1990%Z, 2000%Z) ["Drama"] 7)
           Scenario.open_filter Scenario.store []).
  unfold narrower. simpl. repeat split; try lia.
  - unfold Qle. simpl. lia.
  - left. reflexivity.
Defined.

(** X12.  A year range that ends before it starts lets no movie through:
    the trend, genre and most-discussed pipelines return no row and a
    search finds nothing. *)
Theorem inverted_range_is_empty (fs : filter_state) (ms : list movie)
    (cs : list comment) :
  (snd (year_range fs) < fst (year_range fs))%Z ->
  trend_pipeline fs ms = []
  /\ genre_pipeline fs ms = []
  /\ discussion_pipeline fs ms cs = []
  /\ forall text n, Regex.supported text = true ->
                    search_find text n fs ms = Some [].
Proof.
  intros Hinv.
  assert (Hno : forall m, matches (match_stage fs) m = false).
  { intros m. apply not_true_is_false. rewrite matches_satisfies.
    intros ((y & _ & H1 & H2) & _). rewrite Zlt_Qlt in Hinv. lra. }
  assert (Hmatched : matched fs ms = []).
  { unfold matched. apply filter_none. intros m _. apply Hno. }
  split; [ | split; [ | split ] ].
  - rewrite trend_pipeline_unfold, Hmatched. reflexivity.
  - rewrite genre_pipeline_unfold. unfold unwound. rewrite Hmatched. reflexivity.
  - rewrite discussion_pipeline_unfold. unfold ranking.
    rewrite (@filter_none joined) by (intros j _; apply Hno). reflexivity.
  - intros text n Hsup. unfold search_find. rewrite Hsup.
    rewrite (@filter_none movie).
    + unfold cursor_limit. destruct (n =? 0)%nat; [ reflexivity | ].
      rewrite firstn_nil. reflexivity.
    + intros m _. unfold search_filter.
      change (field_sat (CRegexI text) (opt_field (title m)) && true
              && matches (match_stage fs) m = false).
      rewrite Hno. apply andb_false_r.
Qed.

Lemma inverted_range_is_empty_witness :
  let fs := FilterState (2020%Z, 1990%Z) [] 0 in
  trend_pipeline fs Scenario.store = []
  /\ genre_pipeline fs Scenario.store = []
  /\ discussion_pipeline fs Scenario.store [] = []
  /\ forall text n, Regex.supported text = true ->
                    search_find text n fs Scenario.store = Some [].
Proof.
  apply (@inverted_range_is_empty (FilterState (2020%Z, 1990%Z) [] 0) Scenario.store []).
  simpl. lia.
Defined.

(* ================================================================== *)
(** * The KPI counts and the collections that may be absent *)
(* ================================================================== *)

(** X13.  When the KPI block returns, its three counts are the number of
    movies, the number of users (0 without a users collection) and the
    number of comments (0 without a comments collection). *)
Theorem kpi_counts (db : database) (k : kpis) :
  kpi_queries db = Ok k ->
  movies_count k = List.length (movies db)
  /\ users_count k = user_total db
  /\ comments_count k = List.length (comment_docs db)
  /\ (users db = None -> users_count k = 0%nat)
  /\ (comments db = None -> comments_count k = 0%nat).
Proof.
  unfold kpi_queries, request, bind, collection_names, comment_docs, user_total.
  destruct (failure db CountMovies); [ discriminate | ].
  destruct (failure db ListCollections); [ discriminate | ].
  destruct (users db), (comments db); simpl;
    repeat match goal with
           | |- context [failure db ?c] => destruct (failure db c)
           end;
    try discriminate; intros H; injection H as <-; simpl;
    repeat split; auto; discriminate.
Qed.

Lemma kpi_counts_witness :
  movies_count (Kpis 2 3 1 (SNum (1540 # 200))) = List.length (movies healthy)
  /\ users_count (Kpis 2 3 1 (SNum (1540 # 200))) = user_total healthy
  /\ comments_count (Kpis 2 3 1 (SNum (1540 # 200)))
     = List.length (comment_docs healthy)
  /\ (users healthy = None -> users_count (Kpis 2 3 1 (SNum (1540 # 200))) = 0%nat)
  /\ (comments healthy = None ->
      comments_count (Kpis 2 3 1 (SNum (1540 # 200))) = 0%nat).
Proof.
  apply (@kpi_counts healthy (Kpis 2 3 1 (SNum (1540 # 200)))). reflexivity.
Defined.

(** X14.  A collection that does not exist is not counted: whether the
    count of users (of comments) would fail has no effect on the KPI block
    when there is no users (no comments) collection. *)
Theorem absent_collection_not_queried (db db' : database) :
  same_store db db' ->
  (forall c, In c [CountMovies; ListCollections; AvgRating] ->
             failure db c = failure db' c) ->
  (users db = None \/ failure db CountUsers = failure db' CountUsers) ->
  (comments db = None \/ failure db CountComments = failure db' CountComments) ->
  kpi_section db = kpi_section db'.
Proof.
  intros (Hm & Hu & Hc) Hf Husers Hcomments.
  unfold kpi_section, kpi_queries, request, bind, collection_names,
    user_total, comment_docs.
  rewrite <- Hm, <- Hu, <- Hc.
  rewrite <- (Hf CountMovies), <- (Hf ListCollections), <- (Hf AvgRating)
    by (simpl; tauto).
  destruct (failure db CountMovies); [ reflexivity | ].
  destruct (failure db ListCollections); [ reflexivity | ].
  destruct (users db) as [ n | ], (comments db) as [ cs | ]; simpl;
    repeat match goal with
           | H : None = None \/ ?a = ?b |- _ => clear H
           | H : Some _ = None \/ ?a = ?b |- _ =>
               destruct H as [H | H]; [ discriminate | rewrite <- H; clear H ]
           end;
    reflexivity.
Qed.

Lemma absent_collection_not_queried_witness :
  kpi_section (Database Scenario.store None None (fun _ => None))
  = kpi_section (Database Scenario.store None None
                   (fun c => match c with
                             | CountUsers | CountComments => Some "no such collection"
                             | _ => None
                             end)).
Proof.
  apply absent_collection_not_queried.
  - repeat split.
  - intros c Hc. simpl in Hc.
    destruct Hc as [<- | [<- | [<- | []]]]; reflexivity.
  - left. reflexivity.
  - left. reflexivity.
Defined.

(** X15.  Without any comment in the store the most-discussed panel is not
    attempted, whatever fails; when the KPI block returns on a store that
    has comments, the panel is attempted. *)
Theorem discussion_needs_comments (db : database) (i : inputs) :
  (comment_docs db = [] -> discussion (run db i) = NotRun)
  /\ (comment_docs db <> [] -> (exists k, kpi_queries db = Ok k) ->
      discussion (run db i) <> NotRun).
Proof.
  cbn [run discussion]. unfold discussion_panel, kpi_section. split.
  - intros Hnone. destruct (kpi_queries db) as [ k | e ] eqn:E; [ | reflexivity ].
    apply kpi_queries_ok in E. destruct E as (_ & _ & Hc).
    cbn [snd]. rewrite Hc, Hnone. reflexivity.
  - intros Hsome (k & E). rewrite E. cbn [snd].
    apply kpi_queries_ok in E. destruct E as (_ & _ & Hc). rewrite Hc.
    destruct (comment_docs db) as [ | c r ]; [ congruence | ].
    cbn [List.length Nat.ltb Nat.leb]. unfold panel, request.
    destruct (failure db DiscussionQuery); [ discriminate | ].
    destruct (discussion_pipeline (filters i) (movies db) (c :: r)); discriminate.
Qed.

(* ================================================================== *)
(** * No comment is counted twice *)
(* ================================================================== *)

Section CommentCountFacts.

Lemma total_app (l l' : list nat) : total (l ++ l') = (total l + total l')%nat.
Proof. induction l; simpl; lia. Qed.

Lemma total_firstn (n : nat) (l : list nat) : (total (firstn n l) <= total l)%nat.
Proof.
  rewrite <- (firstn_skipn n l) at 2. rewrite total_app. lia.
Qed.

Lemma total_filter (B : Type) (f : B -> nat) (p : B -> bool) (l : list B) :
  (total (map f (filter p l)) <= total (map f l))%nat.
Proof.
  induction l as [ | x r IH ]; simpl; [ lia | ].
  destruct (p x); simpl; lia.
Qed.

(** Among movies with distinct ids a comment refers to at most one. *)
Lemma refers_once (c : comment) (ms : list movie) :
  NoDup (map m_id ms) ->
  (total (map (fun m => if refers_to m c then 1 else 0)%nat ms) <= 1)%nat.
Proof.
  induction ms as [ | m r IH ]; simpl; intros H; [ lia | ].
  inversion H as [ | ? ? Hm Hr ]; subst. specialize (IH Hr).
  destruct (refers_to m c) eqn:E; [ | lia ].
  assert (Hzero : total (map (fun m' => if refers_to m' c then 1 else 0)%nat r) = 0%nat).
  { clear IH Hr H. induction r as [ | m' r' IHr ]; simpl; [ reflexivity | ].
    assert (E' : refers_to m' c = false).
    { unfold refers_to in *. destruct (movie_id c) as [ i | ]; [ | reflexivity ].
      apply Nat.eqb_eq in E. apply Nat.eqb_neq. intros E2.
      apply Hm. left. congruence. }
    rewrite E'. apply IHr. intros Hin. apply Hm. right. exact Hin. }
  lia.
Qed.

Lemma comments_on_total (cs : list comment) (ms : list movie) :
  NoDup (map m_id ms) ->
  (total (map (comments_on cs) ms) <= List.length cs)%nat.
Proof.
  intros Hids. induction cs as [ | c r IH ].
  - unfold comments_on. simpl. clear Hids. induction ms; simpl; lia.
  - assert (Hsplit : total (map (comments_on (c :: r)) ms)
                     = (total (map (fun m => if refers_to m c then 1 else 0)%nat ms)
                        + total (map (comments_on r) ms))%nat).
    { clear. induction ms as [ | m ms' IHm ]; simpl; [ reflexivity | ].
      rewrite IHm. unfold comments_on. simpl.
      destruct (refers_to m c); simpl; lia. }
    rewrite Hsplit. pose proof (@refers_once c ms Hids). simpl. lia.
Qed.

End CommentCountFacts.

(** X16.  When no two movies share an id, no comment is counted for two
    rows: the comment counts of the most-discussed rows add up to at most
    the number of comments of the store. *)
Theorem discussion_counts_bounded (fs : filter_state) (ms : list movie)
    (cs : list comment) :
  distinct_ids ms ->
  (total (map d_comment_count (discussion_pipeline fs ms cs)) <= List.length cs)%nat.
Proof.
  intros Hids. rewrite discussion_pipeline_unfold, map_map.
  change (fun j => d_comment_count (project_discussed j)) with comment_count.
  rewrite <- firstn_map.
  etransitivity; [ apply total_firstn | ].
  unfold ranking.
  rewrite (total_perm (Permutation_map comment_count (sort_perm _ _))).
  etransitivity; [ apply total_filter | ].
  rewrite map_map.
  change (fun m => comment_count (lookup_comments cs m)) with (comments_on cs).
  apply comments_on_total, Hids.
Qed.

Lemma discussion_counts_bounded_witness :
  (total (map d_comment_count
            (discussion_pipeline Scenario.open_filter Scenario.store
               [Comment 1 (Some 1%nat); Comment 2 None]))
   <= List.length [Comment 1 (Some 1%nat); Comment 2 None])%nat.
Proof.
  apply (@discussion_counts_bounded Scenario.open_filter Scenario.store
           [Comment 1 (Some 1%nat); Comment 2 None]).
  unfold distinct_ids. simpl. repeat constructor; simpl; intuition discriminate.
Defined.

(* ================================================================== *)
(** * What the genre and search panels display *)
(* ================================================================== *)

(** X17.  The genre table and the two genre charts each show the first 15
    genre rows, at most, in another order: the table by decreasing and the
    count chart by increasing movie count.  A genre row left out has no
    more movies than any row shown. *)
Theorem genre_views_top_fifteen (fs : filter_state) (ms : list movie) :
  let rows := genre_pipeline fs ms in
  Permutation (Views.genre_table rows) (firstn 15 rows)
  /\ Permutation (Views.genre_rating_chart rows) (firstn 15 rows)
  /\ Permutation (Views.genre_count_chart rows) (firstn 15 rows)
  /\ (List.length (firstn 15 rows) <= 15)%nat
  /\ StronglySorted more_movies (Views.genre_table rows)
  /\ StronglySorted fewer_movies (Views.genre_count_chart rows)
  /\ (forall shown left_out,
        In shown (Views.genre_table rows) -> In left_out (skipn 15 rows) ->
        (movieCount left_out <= movieCount shown)%nat).
Proof.
  intros rows. unfold Views.genre_table, Views.genre_rating_chart, Views.genre_count_chart.
  repeat match goal with |- _ /\ _ => split end; try apply sort_perm.
  - apply firstn_le_length.
  - apply sort_by_count_desc.
  - apply sort_by_count_asc.
  - intros shown left_out Hs Hl. apply sort_In in Hs.
    exact (@sorted_kept_dropped group_row more_movies 15 rows shown left_out
             (genre_sorted fs ms) Hs Hl).
Qed.

Section ColumnFacts.

Import Views.

Lemma renamed_In (c : string) (cols : list string) :
  In c (renamed cols) ->
  (c = "IMDb Rating" /\ In "imdb.rating" cols) \/ In c cols.
Proof.
  unfold renamed. intros H. apply in_map_iff in H. destruct H as (c0 & Hc & Hin).
  destruct (String.eqb c0 "imdb.rating") eqn:E.
  - left. apply String.eqb_eq in E. subst. auto.
  - right. subst. exact Hin.
Qed.

Lemma frame_columns_known (rows : list search_row) (c : string) :
  In c (frame_columns rows) ->
  In c ["_id"; "title"; "year"; "genres"; "imdb"; "plot"].
Proof.
  unfold frame_columns. intros H. apply in_flat_map in H.
  destruct H as (r & _ & Hc). unfold search_doc_keys, present in Hc.
  destruct (s_title r), (s_year r), (s_genres r), (s_rating r), (s_plot r);
    simpl in Hc; simpl; intuition.
Qed.

End ColumnFacts.

(** X18.  The search table never has a rating column: the frame holds the
    rating under the column ["imdb"], which the renaming of
    ["imdb.rating"] does not touch, so only title, year, genres and plot
    can be displayed; the title column is displayed when a row has a
    title. *)
Theorem search_table_columns (rows : list search_row) :
  ~ In "IMDb Rating" (Views.display_cols rows)
  /\ incl (Views.display_cols rows) ["title"; "year"; "genres"; "plot"]
  /\ ((exists r, In r rows /\ s_title r <> None) ->
      In "title" (Views.display_cols rows)).
Proof.
  assert (Hno : ~ In "IMDb Rating" (Views.display_cols rows)).
  { unfold Views.display_cols. intros H. apply filter_In in H. destruct H as [_ H].
    apply existsb_exists in H. destruct H as (c & Hc & Heq).
    apply String.eqb_eq in Heq. subst c.
    apply renamed_In in Hc. destruct Hc as [(_ & Hc) | Hc];
      apply frame_columns_known in Hc; simpl in Hc;
      repeat (destruct Hc as [Hc | Hc]; [ discriminate | ]); exact Hc. }
  split; [ exact Hno | split ].
  - intros c Hc. assert (Hc' := Hc).
    unfold Views.display_cols in Hc'. apply filter_In in Hc'. destruct Hc' as [Hc' _].
    simpl in Hc'. simpl.
    destruct Hc' as [<- | [<- | [<- | [<- | [<- | []]]]]]; auto.
    destruct (Hno Hc).
  - intros (r & Hr & Ht). unfold Views.display_cols. apply filter_In.
    split; [ left; reflexivity | ].
    apply existsb_exists. exists "title". split; [ | reflexivity ].
    unfold Views.renamed. apply in_map_iff. exists "title". split; [ reflexivity | ].
    unfold Views.frame_columns. apply in_flat_map. exists r. split; [ exact Hr | ].
    unfold Views.search_doc_keys, Views.present.
    destruct (s_title r); [ | congruence ]. simpl. auto.
Qed.
